(** * Build-product adapters for TensorFlow and the TensorFlow Swift APIs

    A shallow embedding of
    [utils/swift_build_support/swift_build_support/products/tensorflow.py]
    and of [utils/update_checkout/tests/test_update_option.py].

    The two adapters are glue code: they assemble command lines, hand them
    to external tools and touch a few filesystem entries.  The embedding
    therefore keeps three things explicit:

    - the _world_ the code runs in: the filesystem entries it can observe,
      the current working directory and the log of every operation the
      code has issued so far;
    - the _environment_, which the code does not control: the exit status
      and filesystem effect of every external tool, and whether the
      operating system refuses a system call;
    - Python's exceptions, as the error half of a state-and-error monad.

    Only real (not dry-run) execution is modelled. *)

From Stdlib Require Import ZArith Ascii String List Lia.
From stdpp Require Import base option strings gmap list.

Local Open Scope string_scope.
Local Open Scope Z_scope.
Local Open Scope list_scope.

(** ** Python strings and [os.path] *)

Module PyStr.

(** [s.startswith(prefix)] *)
Definition startswith (s pre : string) : bool := String.prefix pre s.

(** [s.endswith(suffix)] *)
Definition endswith (s suf : string) : bool :=
  (String.length suf <=? String.length s)%nat
  && String.eqb
       (substring (String.length s - String.length suf)
                  (String.length suf) s)
       suf.

(** One round of the loop of [posixpath.join]:
<<
    if b.startswith(sep):              path = b
    elif not path or path.endswith(sep): path += b
    else:                              path += sep + b
>> *)
Definition join_step (path b : string) : string :=
  if startswith b "/" then b
  else if String.eqb path "" || endswith path "/" then path +:+ b
  else path +:+ "/" +:+ b.

(** [os.path.join(a, *p)] on a POSIX host. *)
Definition os_path_join (a : string) (p : list string) : string :=
  fold_left join_step p a.

End PyStr.
Export PyStr.

(** ** The world *)

(** A filesystem entry.  Paths are kept as the strings the program passes
    to the operating system. *)
Inductive Node : Type :=
| Dir
| File
| Link (target : string).

Inductive Errno : Type :=
| EEXIST | ENOENT | ENOTDIR | EISDIR | EACCES | ELOOP | EIO.

(** The standard output of a spawned process, usable as another command's
    standard input. *)
Inductive Pipe : Type :=
| StdoutOf (producer : list string).

(** The system calls the adapters issue directly. *)
Inductive Syscall : Type :=
| SysMakedirs (path : string)
| SysChdir (path : string)
| SysUnlink (path : string)
| SysSymlink (src dst : string).

(** What the program did, in order.  A [EvCall] records the directory the
    command ran in, its argument vector, its standard input and the exit
    status it came back with. *)
Inductive Event : Type :=
| EvSys (s : Syscall)
| EvPopen (argv : list string)
| EvCall (cwd : string) (argv : list string) (stdin : option Pipe)
         (status : Z).

Record World : Type := mkWorld {
  fs : gmap string Node;
  cwd : string;
  log : list Event;
}.

Definition record (ev : Event) (w : World) : World :=
  {| fs := fs w; cwd := cwd w; log := log w ++ [ev] |}.

Definition with_fs (f : gmap string Node) (w : World) : World :=
  {| fs := f; cwd := cwd w; log := log w |}.

Definition with_cwd (d : string) (w : World) : World :=
  {| fs := fs w; cwd := d; log := log w |}.

(** Everything the adapters depend on but do not define. *)
Record Env : Type := mkEnv {
  (** exit status of an external command and the filesystem it leaves *)
  exec : list string -> option Pipe -> World -> Z * gmap string Node;
  (** [Some e]: the operating system refuses the call with [e] (permission
      denied, I/O error, ...) whatever the entries of the model say *)
  os_fault : Syscall -> World -> option Errno;
  (** [os.path.realpath] *)
  realpath : World -> string -> string;
  (** [targets.toolchain_path(install_destdir, install_prefix)], defined in
      [swift_build_support/targets.py] *)
  toolchain_path : string -> string -> string;
}.

(** ** Exceptions and the monad *)

Inductive Exn : Type :=
| OSError (e : Errno)
| RuntimeError (msg : string)
| CommandFailed (status : Z).

Inductive Res (A : Type) : Type :=
| Ok (a : A)
| Raise (e : Exn).
Arguments Ok {A} a.
Arguments Raise {A} e.

Definition M (A : Type) : Type := World -> Res A * World.

#[export] Instance M_ret : MRet M := fun A a w => (Ok a, w).

#[export] Instance M_bind : MBind M := fun A B f m w =>
  match m w with
  | (Ok a, w') => f a w'
  | (Raise e, w') => (Raise e, w')
  end.

Definition raise {A} (e : Exn) : M A := fun w => (Raise e, w).

(** [try: body / except OSError: handler] *)
Definition try_except_OSError {A} (body handler : M A) : M A := fun w =>
  match body w with
  | (Raise (OSError _), w') => handler w'
  | r => r
  end.

(** [pass] *)
Definition pass : M unit := mret tt.

Definition result {A} (m : M A) (w : World) : Res A := fst (m w).
Definition final {A} (m : M A) (w : World) : World := snd (m w).

(** The events a computation adds to the log. *)
Definition events {A} (m : M A) (w : World) : list Event :=
  drop (length (log w)) (log (final m w)).

(** The external commands among a list of events. *)
Definition is_call (ev : Event) : bool :=
  match ev with EvCall _ _ _ _ => true | _ => false end.

Definition calls (evs : list Event) : list Event := List.filter is_call evs.

(** ** The operating system, as Python's [os] module presents it *)

(** Follow symbolic links from [p], at most [fuel] of them (POSIX gives up
    with [ELOOP] in the same way), down to an entry that is not a link. *)
Fixpoint stat (fuel : nat) (f : gmap string Node) (p : string)
  : Errno + Node :=
  match f !! p with
  | None => inl ENOENT
  | Some (Link t) =>
      match fuel with
      | O => inl ELOOP
      | S n => stat n f t
      end
  | Some n => inr n
  end.

Definition SYMLOOP_MAX : nat := 40.

(** [os.path.isdir] *)
Definition isdir (f : gmap string Node) (p : string) : bool :=
  match stat SYMLOOP_MAX f p with
  | inr Dir => true
  | _ => false
  end.

(** ** Parent directories

    [os.makedirs] splits its argument at the separators and makes every
    parent that is missing before it makes the directory itself. *)

(** Whether [s] still holds a component name. *)
Fixpoint has_component (s : string) : bool :=
  match s with
  | EmptyString => false
  | String c s' => negb (Ascii.eqb c "/") || has_component s'
  end.

(** The proper ancestors of [prefix ++ rest] that end inside [rest],
    shortest first: each prefix that is not empty, does not end in a
    separator and is followed by a separator and a further component.  The
    root is none of them. *)
Fixpoint ancestors_from (prefix rest : string) : list string :=
  match rest with
  | EmptyString => []
  | String c rest' =>
      (if Ascii.eqb c "/" && negb (String.eqb prefix "")
          && negb (endswith prefix "/") && has_component rest'
       then [prefix] else [])
      ++ ancestors_from (prefix +:+ String c EmptyString) rest'
  end.

Definition ancestors (path : string) : list string :=
  ancestors_from "" path.

Fixpoint take_while {A} (p : A -> bool) (l : list A) : list A :=
  match l with
  | [] => []
  | x :: l' => if p x then x :: take_while p l' else []
  end.

(** [os.makedirs] climbs from [path] to the nearest ancestor that exists:
    the parents below it are the ones it makes, shortest first. *)
Definition missing_parents (f : gmap string Node) (path : string)
  : list string :=
  reverse
    (take_while (fun a => match f !! a with None => true | Some _ => false end)
                (reverse (ancestors path))).

(** With an entry at [path] there is nothing to make. *)
Definition parents_to_make (f : gmap string Node) (path : string)
  : list string :=
  match f !! path with
  | Some _ => []
  | None => missing_parents f path
  end.

(** [os.mkdir] of each of [paths], the first one first. *)
Definition mkdirs (paths : list string) (f : gmap string Node)
  : gmap string Node :=
  fold_left (fun g p => <[p := Dir]> g) paths f.

Section Primitives.

Context (E : Env).

(** [os.makedirs(path)], without [exist_ok].  An existing entry at [path]
    is an error, and nothing is made: its parents exist with it.
    Otherwise the missing parents are made, the shortest path first, and
    then [path] itself.  When the operating system refuses the call, the
    parents it did not refuse to make are left behind. *)
Definition os_makedirs (path : string) : M unit := fun w =>
  let w1 := record (EvSys (SysMakedirs path)) w in
  let parents := parents_to_make (fs w) path in
  match os_fault E (SysMakedirs path) w with
  | Some e =>
      let made :=
        take_while
          (fun a => match os_fault E (SysMakedirs a) w with
                    | None => true
                    | Some _ => false
                    end)
          parents in
      (Raise (OSError e), with_fs (mkdirs made (fs w)) w1)
  | None =>
      match fs w !! path with
      | Some _ => (Raise (OSError EEXIST), w1)
      | None => (Ok tt, with_fs (<[path := Dir]> (mkdirs parents (fs w))) w1)
      end
  end.

(** [os.getcwd()] *)
Definition os_getcwd : M string := fun w => (Ok (cwd w), w).

(** [os.chdir(path)] *)
Definition os_chdir (path : string) : M unit := fun w =>
  let w1 := record (EvSys (SysChdir path)) w in
  match os_fault E (SysChdir path) w with
  | Some e => (Raise (OSError e), w1)
  | None =>
      match stat SYMLOOP_MAX (fs w) path with
      | inl e => (Raise (OSError e), w1)
      | inr Dir => (Ok tt, with_cwd path w1)
      | inr _ => (Raise (OSError ENOTDIR), w1)
      end
  end.

(** [os.unlink(path)]: removes a file or a link, never a directory. *)
Definition os_unlink (path : string) : M unit := fun w =>
  let w1 := record (EvSys (SysUnlink path)) w in
  match os_fault E (SysUnlink path) w with
  | Some e => (Raise (OSError e), w1)
  | None =>
      match fs w !! path with
      | None => (Raise (OSError ENOENT), w1)
      | Some Dir => (Raise (OSError EISDIR), w1)
      | Some _ => (Ok tt, with_fs (delete path (fs w)) w1)
      end
  end.

(** [os.symlink(src, dst)]: creates [dst] pointing at [src]; [src] need
    not exist, [dst] must not. *)
Definition os_symlink (src dst : string) : M unit := fun w =>
  let w1 := record (EvSys (SysSymlink src dst)) w in
  match os_fault E (SysSymlink src dst) w with
  | Some e => (Raise (OSError e), w1)
  | None =>
      match fs w !! dst with
      | Some _ => (Raise (OSError EEXIST), w1)
      | None => (Ok tt, with_fs (<[dst := Link src]> (fs w)) w1)
      end
  end.

(** [os.path.realpath(path)] *)
Definition os_path_realpath (path : string) : M string := fun w =>
  (Ok (realpath E w path), w).

(** ** The [shell] helpers of [swift_build_support] *)

(** Modelled from the spec: [shell.call], defined in
    [swift_build_support/shell.py], which is not part of the excerpt.
    The spec has it run one external command to completion and, on a
    non-zero exit status, abort the calling step by propagating the
    failure. *)
Definition shell_call (argv : list string) (stdin : option Pipe)
  : M unit := fun w =>
  let '(status, f) := exec E argv stdin w in
  let w1 := with_fs f (record (EvCall (cwd w) argv stdin status) w) in
  if status =? 0 then (Ok tt, w1) else (Raise (CommandFailed status), w1).

(** Modelled from the spec: [shell.Popen(argv, stdout=subprocess.PIPE)],
    defined in [swift_build_support/shell.py]: starts [argv] without
    waiting for it and hands back the pipe on its standard output. *)
Definition shell_Popen (argv : list string) : M Pipe := fun w =>
  (Ok (StdoutOf argv), record (EvPopen argv) w).

(** Modelled from the spec: the context manager [shell.pushd(path)],
    defined in [swift_build_support/shell.py]: changes into [path], runs
    the body of the [with] block there and changes back when the body
    finishes.  An exception of the body leaves the block at once. *)
Definition shell_pushd {A} (path : string) (body : M A) : M A :=
  old_dir ← os_getcwd;
  os_chdir path;;
  r ← body;
  os_chdir old_dir;;
  mret r.

End Primitives.

(** ** Product descriptors *)

(** The fields of the orchestrator's argument object that the adapters
    read. *)
Record Args : Type := mkArgs {
  build_tensorflow_swift_apis : bool;
  install_tensorflow_swift_apis : bool;
  install_destdir : string;
  install_prefix : string;
}.

Record Toolchain : Type := mkToolchain {
  cmake : string;
  ninja : string;
  bazel : string;
}.

(** The state of a [product.Product] instance. *)
Record Product : Type := mkProduct {
  args : Args;
  toolchain : Toolchain;
  source_dir : string;
  build_dir : string;
}.

(** ** [class TensorFlowSwiftAPIs(product.Product)] *)

Module TensorFlowSwiftAPIs.
Section Methods.

Context (E : Env).

Definition product_source_name : string := "tensorflow-swift-apis".

Definition is_build_script_impl_product : bool := false.

Definition should_build (self : Product) (host_target : string) : bool :=
  build_tensorflow_swift_apis (args self).

(** The [if]/[elif]/[else] on [host_target] that chooses [lib_name]. *)
Definition select_lib_name (host_target : string) : M string :=
  if startswith host_target "macosx" then mret "libtensorflow.dylib"
  else if startswith host_target "linux" then mret "libtensorflow.so"
  else raise (RuntimeError ("Unknown host target " +:+ host_target)).

(** The [try]/[except] around [os.makedirs(self.build_dir)]. *)
Definition make_build_dir (self : Product) : M unit :=
  try_except_OSError (os_makedirs E (build_dir self)) pass.

(** The argument vector of the generating CMake invocation. *)
Definition configure_argv (self : Product)
    (swiftc tensorflow_source_dir lib_name : string) : list string :=
  [ cmake (toolchain self);
    "-G"; "Ninja";
    "-D"; "BUILD_SHARED_LIBS=YES";
    "-D"; "CMAKE_INSTALL_PREFIX=" +:+ install_destdir (args self)
            +:+ "/usr";
    "-D"; "CMAKE_MAKE_PROGRAM=" +:+ ninja (toolchain self);
    "-D"; "CMAKE_Swift_COMPILER=" +:+ swiftc;
    "-D"; "TensorFlow_INCLUDE_DIR=" +:+ tensorflow_source_dir;
    "-D"; "TensorFlow_LIBRARY="
            +:+ os_path_join tensorflow_source_dir
                  ["bazel-bin"; "tensorflow"; lib_name];
    "-D"; "CMAKE_Swift_FLAGS="
            +:+ ("-L" +:+ os_path_join tensorflow_source_dir
                            ["bazel-bin"; "tensorflow"]);
    "-B"; build_dir self;
    "-S"; source_dir self ].

Definition build_argv (self : Product) : list string :=
  [ cmake (toolchain self); "--build"; build_dir self ].

(** The body of [with shell.pushd(self.build_dir)]. *)
Definition run_cmake (self : Product)
    (swiftc tensorflow_source_dir lib_name : string) : M unit :=
  shell_call E (configure_argv self swiftc tensorflow_source_dir lib_name)
             None;;
  shell_call E (build_argv self) None.

Definition build (self : Product) (host_target : string) : M unit :=
  let toolchain_path :=
    toolchain_path E (install_destdir (args self))
                   (install_prefix (args self)) in
  let swiftc := os_path_join toolchain_path ["usr"; "bin"; "swiftc"] in
  let tensorflow_source_dir :=
    os_path_join (source_dir self) [".."; "tensorflow"] in
  tensorflow_source_dir ← os_path_realpath E tensorflow_source_dir;
  lib_name ← select_lib_name host_target;
  make_build_dir self;;
  shell_pushd E (build_dir self)
    (run_cmake self swiftc tensorflow_source_dir lib_name).

Definition should_test (self : Product) (host_target : string) : bool :=
  false.

Definition test (self : Product) (host_target : string) : M unit := pass.

Definition should_install (self : Product) (host_target : string)
  : bool :=
  install_tensorflow_swift_apis (args self).

Definition install_argv (self : Product) : list string :=
  [ cmake (toolchain self); "--build"; build_dir self;
    "--target"; "install" ].

Definition install (self : Product) (host_target : string) : M unit :=
  shell_call E (install_argv self) None.

End Methods.
End TensorFlowSwiftAPIs.

(** ** [class TensorFlow(product.Product)] *)

Module TensorFlow.
Section Methods.

Context (E : Env).

Definition product_source_name : string := "tensorflow".

Definition is_build_script_impl_product : bool := false.

Definition should_build (self : Product) (host_target : string) : bool :=
  build_tensorflow_swift_apis (args self).

Definition bazel_argv (self : Product) : list string :=
  [ bazel (toolchain self);
    "build";
    "-c"; "opt";
    "--define"; "framework_shared_object=false";
    "//tensorflow:tensorflow" ].

(** The [if]/[elif]/[else] on [host_target] that chooses
    [(suffixed_lib_name, unsuffixed_lib_name)]. *)
Definition select_lib_names (host_target : string) : M (string * string) :=
  if startswith host_target "macosx"
  then mret ("libtensorflow.2.1.0.dylib", "libtensorflow.dylib")
  else if startswith host_target "linux"
  then mret ("libtensorflow.so.2.1.0", "libtensorflow.so")
  else raise (RuntimeError ("unknown host target " +:+ host_target)).

(** Where bazel leaves [name]. *)
Definition bazel_bin (self : Product) (name : string) : string :=
  os_path_join (source_dir self) ["bazel-bin"; "tensorflow"; name].

(** The last two statements of [build]: drop whatever is at the
    unsuffixed name, ignoring an [OSError], then link it. *)
Definition link_unsuffixed (self : Product)
    (suffixed_lib_name unsuffixed_lib_name : string) : M unit :=
  try_except_OSError
    (os_unlink E (bazel_bin self unsuffixed_lib_name)) pass;;
  os_symlink E (bazel_bin self suffixed_lib_name)
               (bazel_bin self unsuffixed_lib_name).

Definition build (self : Product) (host_target : string) : M unit :=
  let configure_script_path :=
    os_path_join (source_dir self) ["configure"] in
  yes_process ← shell_Popen ["yes"; ""];
  shell_call E [configure_script_path] (Some yes_process);;
  shell_call E (bazel_argv self) None;;
  names ← select_lib_names host_target;
  link_unsuffixed self names.1 names.2.

Definition should_test (self : Product) (host_target : string) : bool :=
  false.

Definition test (self : Product) (host_target : string) : M unit := pass.

Definition should_install (self : Product) (host_target : string)
  : bool := false.

Definition install (self : Product) (host_target : string) : M unit :=
  pass.

End Methods.
End TensorFlow.

(** ** [class UpdateOptionTestCase(scheme_mock.SchemeMockTestCase)] *)

Module UpdateOptionTestCase.
Section Methods.

Context (E : Env).

(** The attributes the test reads from its base class. *)
Record SchemeMockTestCase : Type := mkCase {
  update_checkout_path : string;
  config_path : string;
  source_root : string;
}.

(** Modelled from the spec: [SchemeMockTestCase.call], defined in
    [update_checkout/tests/scheme_mock.py], which is not part of the
    excerpt.  The spec has it invoke the script through its command-line
    interface and assert a zero exit status. *)
Definition call (self : SchemeMockTestCase) (argv : list string)
  : M unit := fun w =>
  let '(status, f) := exec E argv None w in
  let w1 := with_fs f (record (EvCall (cwd w) argv None status) w) in
  if status =? 0 then (Ok tt, w1) else (Raise (CommandFailed status), w1).

Definition test_update_option (self : SchemeMockTestCase) : M unit :=
  call self [ update_checkout_path self;
              "--config"; config_path self;
              "--source-root"; source_root self;
              "--clone"; "--update" ].

(** A test passes when its body returns without an exception. *)
Definition passes (t : M unit) (w : World) : bool :=
  match result t w with
  | Ok _ => true
  | Raise _ => false
  end.

End Methods.
End UpdateOptionTestCase.

(** ** Fail-stop discipline

    A computation is _disciplined_ when it only ever appends to the log
    and, as soon as an external command comes back with a non-zero status,
    does nothing more and raises that failure. *)

Definition stops_at_failure {A} (evs : list Event) (r : Res A) : Prop :=
  forall pre c argv i s post,
    evs = pre ++ EvCall c argv i s :: post -> s <> 0 ->
    post = [] /\ r = Raise (CommandFailed s).

Definition disciplined {A} (m : M A) : Prop :=
  forall w, exists evs,
    log (final m w) = log w ++ evs /\ stops_at_failure evs (result m w).

Definition failed (ev : Event) : bool :=
  match ev with
  | EvCall _ _ _ s => negb (s =? 0)
  | _ => false
  end.

(** The commands that came back with a non-zero status. *)
Definition failed_calls (evs : list Event) : list Event :=
  List.filter failed evs.

(** A system call logs itself, then returns or raises an [OSError]; only a
    successful [chdir] moves the working directory. *)
Definition cwd_after (s : Syscall) (r : Res unit) (w : World) : string :=
  match s, r with
  | SysChdir path, Ok _ => path
  | _, _ => cwd w
  end.

Definition syscall_shape (s : Syscall) (m : M unit) : Prop :=
  forall w, exists (r : Res unit) (f : gmap string Node),
    m w = (r, {| fs := f; cwd := cwd_after s r w;
                 log := log w ++ [EvSys s] |})
    /\ (r = Ok tt \/ exists e, r = Raise (OSError e)).

(** The operating system never refuses [s] for a reason of its own. *)
Definition permitted (E : Env) (s : Syscall) : Prop :=
  forall w, os_fault E s w = None.

(** A component that is a plain name: not empty, not absolute and without
    a trailing separator. *)
Definition plain (p : string) : Prop :=
  p <> "" /\ startswith p "/" = false /\ endswith p "/" = false.

(** ** Sample inputs

    A small concrete setting in which the definitions can be run. *)

Module Sample.

Definition the_args : Args :=
  {| build_tensorflow_swift_apis := true;
     install_tensorflow_swift_apis := true;
     install_destdir := "/dest";
     install_prefix := "/usr" |}.

Definition the_toolchain : Toolchain :=
  {| cmake := "/bin/cmake"; ninja := "/bin/ninja"; bazel := "/bin/bazel" |}.

Definition apis : Product :=
  {| args := the_args; toolchain := the_toolchain;
     source_dir := "/src/tensorflow-swift-apis";
     build_dir := "/build/tensorflow-swift-apis" |}.

Definition tensorflow : Product :=
  {| args := the_args; toolchain := the_toolchain;
     source_dir := "/src/tensorflow";
     build_dir := "/build/tensorflow" |}.

(** An environment in which every command exits with [status] and leaves
    the filesystem alone, and no system call is refused. *)
Definition env_exit (status : Z) : Env :=
  {| exec := fun _ _ w => (status, fs w);
     os_fault := fun _ _ => None;
     realpath := fun _ p => p;
     toolchain_path := fun destdir _ => destdir |}.

(** As [env_exit 0], except that the command whose first word is [tool]
    exits with [status]. *)
Definition env_failing (tool : string) (status : Z) : Env :=
  {| exec := fun argv _ w =>
       (match argv with
        | t :: _ => if String.eqb t tool then status else 0
        | [] => 0
        end, fs w);
     os_fault := fun _ _ => None;
     realpath := fun _ p => p;
     toolchain_path := fun destdir _ => destdir |}.

(** An environment in which creating directories is not permitted. *)
Definition env_readonly : Env :=
  {| exec := fun _ _ w => (0, fs w);
     os_fault := fun s _ =>
       match s with SysMakedirs _ => Some EACCES | _ => None end;
     realpath := fun _ p => p;
     toolchain_path := fun destdir _ => destdir |}.

Definition world (f : gmap string Node) : World :=
  {| fs := f; cwd := "/"; log := [] |}.

(** Nothing but the root directory. *)
Definition empty_world : World := world {[ "/" := Dir ]}.

End Sample.

(** The first three statements of [TensorFlow.build]: the configure script
    fed by [yes ''], then the bazel build. *)
Definition tensorflow_tools (E : Env) (self : Product) : M unit :=
  let configure_script_path :=
    os_path_join (source_dir self) ["configure"] in
  yes_process ← shell_Popen ["yes"; ""];
  shell_call E [configure_script_path] (Some yes_process);;
  shell_call E (TensorFlow.bazel_argv self) None.

(** ** The world before and after a computation *)

(** [R] relates the world a computation starts in to the one it leaves. *)
Definition stable {A} (R : World -> World -> Prop) (m : M A) : Prop :=
  forall w, R w (final m w).

Definition same_cwd (w w' : World) : Prop := cwd w' = cwd w.

(** Every entry is kept, and an entry that is new is a directory: [b] or
    one of its ancestors. *)
Definition fs_grows_by_dir (b : string) (w w' : World) : Prop :=
  (forall q n, fs w !! q = Some n -> fs w' !! q = Some n)
  /\ (forall q n, fs w !! q = None -> fs w' !! q = Some n ->
      n = Dir /\ (q = b \/ q ∈ ancestors b)).

(** Every path not in [P] has the entry it had. *)
Definition fs_same_outside (P : string -> Prop) (w w' : World) : Prop :=
  forall q, ~ P q -> fs w' !! q = fs w !! q.

(** The external tools leave the filesystem as they find it. *)
Definition quiet (E : Env) : Prop :=
  forall argv i w, (exec E argv i w).2 = fs w.

Module Checkout.

(** A checkout in which [os.path.realpath] resolves the sibling directory
    of the bindings to the runtime library's source directory. *)
Definition env : Env :=
  {| exec := fun _ _ w => (0, fs w);
     os_fault := fun _ _ => None;
     realpath := fun _ p =>
       if String.eqb p "/src/tensorflow-swift-apis/../tensorflow"
       then "/src/tensorflow" else p;
     toolchain_path := fun destdir _ => destdir |}.

End Checkout.

(** * Facts *)

(** ** Strings and paths *)

Lemma startswith_app (pre rest : string) :
  startswith (pre +:+ rest) pre = true.
Proof.
  unfold startswith.
  induction pre as [|c pre IH]; simpl.
  - now destruct rest.
  - destruct (ascii_dec c c) as [_|Hne]; [exact IH | now elim Hne].
Qed.

Lemma startswith_inv (s pre : string) :
  startswith s pre = true -> exists rest, s = pre +:+ rest.
Proof.
  unfold startswith. revert s.
  induction pre as [|c pre IH]; intros s H.
  - now exists s.
  - destruct s as [|d s]; simpl in H; [discriminate|].
    destruct (ascii_dec c d) as [->|_]; [|discriminate].
    destruct (IH s H) as [rest ->]. now exists rest.
Qed.

(** The two recognised prefixes exclude each other. *)
Lemma macosx_not_linux (s : string) :
  startswith s "macosx" = true -> startswith s "linux" = false.
Proof.
  intros H. destruct (startswith_inv _ _ H) as [rest ->]. reflexivity.
Qed.

Lemma endswith_nil_l (suf : string) :
  suf <> "" -> endswith "" suf = false.
Proof. destruct suf; [congruence | reflexivity]. Qed.

(** On a base that is not empty and does not end in a separator, and for a
    component that is not absolute, [os.path.join] puts one separator in
    between. *)
Lemma join_step_plain (path b : string) :
  path <> "" -> endswith path "/" = false -> startswith b "/" = false ->
  join_step path b = path +:+ "/" +:+ b.
Proof.
  intros Hne He Hs. unfold join_step. rewrite Hs, He.
  destruct (String.eqb_spec path ""); [contradiction | reflexivity].
Qed.

(** ** [os.path.join] on ordinary components *)

Lemma endswith_sep_cons (a : ascii) (u : string) :
  u <> "" -> endswith (String a u) "/" = endswith u "/".
Proof.
  intros Hu. destruct u as [|b u]; [congruence|].
  unfold endswith. cbn [String.length Nat.leb andb].
  replace (S (S (String.length u)) - 1)%nat with (S (String.length u))
    by lia.
  replace (S (String.length u) - 1)%nat with (String.length u) by lia.
  reflexivity.
Qed.

Lemma endswith_sep_app (s t : string) :
  t <> "" -> endswith (s +:+ t) "/" = endswith t "/".
Proof.
  intros Ht. induction s as [|a s IH]; [reflexivity|].
  change (String a s +:+ t) with (String a (s +:+ t)).
  rewrite endswith_sep_cons; [exact IH|].
  destruct s; [exact Ht | discriminate].
Qed.

(** Joining plain names to a base that is not empty and does not end in
    a separator is concatenation with one separator before each name. *)
Lemma os_path_join_plain (parts : list string) (base : string) :
  base <> "" -> endswith base "/" = false -> Forall plain parts ->
  os_path_join base parts
  = fold_left (fun acc p => acc +:+ "/" +:+ p) parts base.
Proof.
  intros Hne He Hall. revert base Hne He.
  induction Hall as [|p parts (Hp & Hs & Ht) _ IH]; intros base Hne He.
  - reflexivity.
  - unfold os_path_join in *. cbn [fold_left].
    rewrite (join_step_plain _ _ Hne He Hs). apply IH.
    + destruct base; [congruence | discriminate].
    + rewrite endswith_sep_app by discriminate.
      change ("/" +:+ p) with (String "/" p).
      now rewrite endswith_sep_cons.
Qed.

Example swiftc_in_toolchain (toolchain_dir : string) :
  toolchain_dir <> "" -> endswith toolchain_dir "/" = false ->
  os_path_join toolchain_dir ["usr"; "bin"; "swiftc"]
  = ((toolchain_dir +:+ "/usr") +:+ "/bin") +:+ "/swiftc".
Proof.
  intros Hne He. rewrite os_path_join_plain; [reflexivity | exact Hne
    | exact He |].
  repeat constructor; discriminate.
Qed.

(** ** The monad *)

Lemma bind_Ok {A B} (m : M A) (f : A -> M B) w a w' :
  m w = (Ok a, w') -> (m ≫= f) w = f a w'.
Proof. intros H. unfold mbind, M_bind. now rewrite H. Qed.

Lemma bind_Raise {A B} (m : M A) (f : A -> M B) w e w' :
  m w = (Raise e, w') -> (m ≫= f) w = (Raise e, w').
Proof. intros H. unfold mbind, M_bind. now rewrite H. Qed.

Lemma events_of_log {A} (m : M A) w evs :
  log (final m w) = log w ++ evs -> events m w = evs.
Proof. intros H. unfold events. rewrite H. apply drop_app_length. Qed.

(** A [try] whose body raises an [OSError] and whose handler is [pass]
    returns normally: the exception goes no further. *)
Lemma try_pass_OSError (body : M unit) w e w' :
  body w = (Raise (OSError e), w') ->
  try_except_OSError body pass w = (Ok tt, w').
Proof. intros H. unfold try_except_OSError. now rewrite H. Qed.

Lemma try_Ok {A} (body handler : M A) w a w' :
  body w = (Ok a, w') -> try_except_OSError body handler w = (Ok a, w').
Proof. intros H. unfold try_except_OSError. now rewrite H. Qed.

(** ** Fail-stop discipline *)

Lemma stops_nil {A} (r : Res A) : stops_at_failure [] r.
Proof. intros [|? ?] ? ? ? ? ? H; discriminate H. Qed.

Lemma stops_quiet {A} (evs : list Event) (r : Res A) :
  Forall (fun ev => failed ev = false) evs -> stops_at_failure evs r.
Proof.
  intros Hq pre c argv i s post -> Hs.
  apply Forall_app in Hq as [_ Hq]. apply Forall_cons in Hq as [Hq _].
  simpl in Hq. apply negb_false_iff, Z.eqb_eq in Hq. contradiction.
Qed.

(** A computation that did not raise a command failure saw none. *)
Lemma stops_quiet_inv {A} (evs : list Event) (r : Res A) :
  stops_at_failure evs r ->
  (forall s, r <> Raise (CommandFailed s)) ->
  Forall (fun ev => failed ev = false) evs.
Proof.
  intros Hst Hr. apply Forall_forall. intros ev Hin.
  destruct ev as [| |c argv i s]; try reflexivity. simpl.
  destruct (Z.eqb_spec s 0) as [|Hs]; [reflexivity|].
  apply list_elem_of_split in Hin as (pre & post & ->).
  destruct (Hst _ _ _ _ _ _ eq_refl Hs) as [_ Hraise].
  now elim (Hr s).
Qed.

(** A failing command in [quiet ++ evs] lies in [evs]. *)
Lemma split_after_quiet (quiet evs pre post : list Event) (ev : Event) :
  Forall (fun ev => failed ev = false) quiet ->
  failed ev = true ->
  quiet ++ evs = pre ++ ev :: post ->
  exists pre', pre = quiet ++ pre' /\ evs = pre' ++ ev :: post.
Proof.
  intros Hq Hev. revert pre.
  induction Hq as [|q quiet Hq0 Hq IH]; intros pre Heq.
  - now exists pre.
  - destruct pre as [|p pre]; simpl in Heq.
    + injection Heq as -> _. congruence.
    + injection Heq as -> Heq.
      destruct (IH _ Heq) as (pre' & -> & ->). now exists pre'.
Qed.

Lemma stops_app_quiet {A} (quiet evs : list Event) (r : Res A) :
  Forall (fun ev => failed ev = false) quiet ->
  stops_at_failure evs r -> stops_at_failure (quiet ++ evs) r.
Proof.
  intros Hq Hst pre c argv i s post Heq Hs.
  destruct (split_after_quiet quiet evs pre post (EvCall c argv i s) Hq)
    as (pre' & _ & Heq'); [| exact Heq | exact (Hst _ _ _ _ _ _ Heq' Hs)].
  simpl. now apply negb_true_iff, Z.eqb_neq.
Qed.

(** An exception stops a computation whatever its result type. *)
Lemma stops_Raise {A B} (evs : list Event) (e : Exn) :
  stops_at_failure evs (@Raise A e) -> stops_at_failure evs (@Raise B e).
Proof.
  intros Hst pre c argv i s post Heq Hs.
  destruct (Hst _ _ _ _ _ _ Heq Hs) as [-> Hr].
  injection Hr as ->. now split.
Qed.

Lemma stops_singleton_sys {A} (s : Syscall) (r : Res A) :
  stops_at_failure [EvSys s] r.
Proof. apply stops_quiet. now repeat constructor. Qed.

Lemma stops_singleton_popen {A} (argv : list string) (r : Res A) :
  stops_at_failure [EvPopen argv] r.
Proof. apply stops_quiet. now repeat constructor. Qed.

Create HintDb discipline.

Lemma disciplined_ret {A} (a : A) : disciplined (mret a).
Proof. intros w. exists []. split; [now rewrite app_nil_r | apply stops_nil]. Qed.

Lemma disciplined_pass : disciplined pass.
Proof. apply disciplined_ret. Qed.

Lemma disciplined_raise {A} (e : Exn) : disciplined (@raise A e).
Proof. intros w. exists []. split; [now rewrite app_nil_r | apply stops_nil]. Qed.

Lemma disciplined_bind {A B} (m : M A) (f : A -> M B) :
  disciplined m -> (forall a, disciplined (f a)) -> disciplined (m ≫= f).
Proof.
  intros Hm Hf w. destruct (Hm w) as (e1 & Hlog1 & Hst1).
  unfold final, result in *. unfold mbind, M_bind.
  destruct (m w) as [[a|e] w1]; simpl in *.
  - destruct (Hf a w1) as (e2 & Hlog2 & Hst2). unfold final, result in *.
    exists (e1 ++ e2). split.
    + now rewrite Hlog2, Hlog1, app_assoc.
    + apply stops_app_quiet; [|exact Hst2].
      apply (stops_quiet_inv _ _ Hst1). discriminate.
  - exists e1. split; [exact Hlog1 | exact (stops_Raise _ _ Hst1)].
Qed.

Lemma disciplined_try {A} (body handler : M A) :
  disciplined body -> disciplined handler ->
  disciplined (try_except_OSError body handler).
Proof.
  intros Hb Hh w. destruct (Hb w) as (e1 & Hlog1 & Hst1).
  unfold final, result in *. unfold try_except_OSError.
  destruct (body w) as [[a|[e|msg|s]] w1]; simpl in *;
    try (exists e1; now split).
  destruct (Hh w1) as (e2 & Hlog2 & Hst2). unfold final, result in *.
  exists (e1 ++ e2). split.
  - now rewrite Hlog2, Hlog1, app_assoc.
  - apply stops_app_quiet; [|exact Hst2].
    apply (stops_quiet_inv _ _ Hst1). discriminate.
Qed.

#[export] Hint Resolve disciplined_ret disciplined_pass disciplined_raise
  disciplined_bind disciplined_try : discipline.

Section PrimitiveDiscipline.

Context (E : Env).

Ltac one_syscall :=
  intros w; eexists [_]; unfold final, result;
  split; [| apply stops_singleton_sys].

Lemma disciplined_makedirs path : disciplined (os_makedirs E path).
Proof.
  one_syscall. unfold os_makedirs.
  destruct (os_fault _ _ _); [reflexivity|].
  now destruct (fs w !! path).
Qed.

Lemma disciplined_chdir path : disciplined (os_chdir E path).
Proof.
  one_syscall. unfold os_chdir.
  destruct (os_fault _ _ _); [reflexivity|].
  now destruct (stat _ _ _) as [|[| |]].
Qed.

Lemma disciplined_unlink path : disciplined (os_unlink E path).
Proof.
  one_syscall. unfold os_unlink.
  destruct (os_fault _ _ _); [reflexivity|].
  now destruct (fs w !! path) as [[| |]|].
Qed.

Lemma disciplined_symlink src dst : disciplined (os_symlink E src dst).
Proof.
  one_syscall. unfold os_symlink.
  destruct (os_fault _ _ _); [reflexivity|].
  now destruct (fs w !! dst).
Qed.

Lemma disciplined_getcwd : disciplined os_getcwd.
Proof.
  intros w. exists []. split; [now rewrite app_nil_r | apply stops_nil].
Qed.

Lemma disciplined_realpath path : disciplined (os_path_realpath E path).
Proof.
  intros w. exists []. split; [now rewrite app_nil_r | apply stops_nil].
Qed.

Lemma disciplined_Popen argv : disciplined (shell_Popen argv).
Proof.
  intros w. exists [EvPopen argv].
  split; [reflexivity | apply stops_singleton_popen].
Qed.

(** The one place where a command's status is looked at. *)
Lemma disciplined_call argv stdin : disciplined (shell_call E argv stdin).
Proof.
  intros w. unfold final, result, shell_call.
  destruct (exec E argv stdin w) as [status f].
  exists [EvCall (cwd w) argv stdin status]. split.
  - now destruct (status =? 0).
  - intros [|? [|? ?]] c a i s post Heq Hs; try discriminate Heq.
    injection Heq as _ _ _ -> <-. split; [reflexivity|].
    destruct (Z.eqb_spec s 0); [contradiction | reflexivity].
Qed.

Lemma disciplined_pushd {A} path (body : M A) :
  disciplined body -> disciplined (shell_pushd E path body).
Proof.
  intros Hb. unfold shell_pushd.
  apply disciplined_bind; [apply disciplined_getcwd | intros old].
  apply disciplined_bind; [apply disciplined_chdir | intros _].
  apply disciplined_bind; [exact Hb | intros r].
  apply disciplined_bind; [apply disciplined_chdir | intros _].
  apply disciplined_ret.
Qed.

End PrimitiveDiscipline.

#[export] Hint Resolve disciplined_makedirs disciplined_chdir
  disciplined_unlink disciplined_symlink disciplined_getcwd
  disciplined_realpath disciplined_Popen disciplined_call
  disciplined_pushd : discipline.

Lemma disciplined_events {A} (m : M A) (w : World) :
  disciplined m -> stops_at_failure (events m w) (result m w).
Proof.
  intros Hm. destruct (Hm w) as (evs & Hlog & Hst).
  now rewrite (events_of_log _ _ _ Hlog).
Qed.

(** ** The methods are disciplined *)

Section MethodDiscipline.

Context (E : Env) (self : Product) (host_target : string).

Lemma disciplined_select_lib_name :
  disciplined (TensorFlowSwiftAPIs.select_lib_name host_target).
Proof.
  unfold TensorFlowSwiftAPIs.select_lib_name.
  repeat case_match; auto with discipline.
Qed.

Lemma disciplined_select_lib_names :
  disciplined (TensorFlow.select_lib_names host_target).
Proof.
  unfold TensorFlow.select_lib_names.
  repeat case_match; auto with discipline.
Qed.

Hint Resolve disciplined_select_lib_name disciplined_select_lib_names
  : discipline.

Lemma disciplined_apis_build :
  disciplined (TensorFlowSwiftAPIs.build E self host_target).
Proof.
  unfold TensorFlowSwiftAPIs.build, TensorFlowSwiftAPIs.make_build_dir,
    TensorFlowSwiftAPIs.run_cmake.
  auto 10 with discipline.
Qed.

Lemma disciplined_apis_install :
  disciplined (TensorFlowSwiftAPIs.install E self host_target).
Proof. unfold TensorFlowSwiftAPIs.install. auto with discipline. Qed.

Lemma disciplined_tensorflow_build :
  disciplined (TensorFlow.build E self host_target).
Proof.
  unfold TensorFlow.build, TensorFlow.link_unsuffixed.
  auto 10 with discipline.
Qed.

End MethodDiscipline.

Arguments os_path_join : simpl never.
Arguments String.append : simpl never.

(** ** Running the methods step by step *)

Lemma shell_call_cases (E : Env) argv stdin w :
  exists (s : Z) (f : gmap string Node),
    shell_call E argv stdin w
    = (if s =? 0 then Ok tt else Raise (CommandFailed s),
       {| fs := f; cwd := cwd w;
          log := log w ++ [EvCall (cwd w) argv stdin s] |}).
Proof.
  unfold shell_call. destruct (exec E argv stdin w) as [s f].
  exists s, f. now destruct (s =? 0).
Qed.

(** Run the next [shell.call] and split on its exit status. *)
Ltac step_call :=
  match goal with
  | |- context [shell_call ?E ?a ?i ?w] =>
      let s := fresh "s" in
      let f := fresh "f" in
      let H := fresh "Hcall" in
      destruct (shell_call_cases E a i w) as (s & f & H);
      rewrite H; clear H;
      destruct (Z.eqb_spec s 0) as [->|?]; cbn
  end.

(** Bring [events m w] to the form [drop (length l) (l ++ evs)] and
    read off [evs]. *)
Ltac read_events :=
  unfold events, final; cbn;
  rewrite <- ?app_assoc; rewrite ?drop_app_length; cbn.

Section SyscallShapes.

Context (E : Env).

Ltac shape :=
  match goal with
  | |- exists r f, (?res, _) = _ /\ _ =>
      exists res; eexists; split; [reflexivity | eauto]
  end.

Lemma os_makedirs_shape path :
  syscall_shape (SysMakedirs path) (os_makedirs E path).
Proof.
  intros w. unfold os_makedirs.
  destruct (os_fault _ _ _); [shape|].
  destruct (fs w !! path); shape.
Qed.

Lemma os_chdir_shape path :
  syscall_shape (SysChdir path) (os_chdir E path).
Proof.
  intros w. unfold os_chdir.
  destruct (os_fault _ _ _); [shape|].
  destruct (stat _ _ _) as [|[| |]]; shape.
Qed.

Lemma os_unlink_shape path :
  syscall_shape (SysUnlink path) (os_unlink E path).
Proof.
  intros w. unfold os_unlink.
  destruct (os_fault _ _ _); [shape|].
  destruct (fs w !! path) as [[| |]|]; shape.
Qed.

Lemma os_symlink_shape src dst :
  syscall_shape (SysSymlink src dst) (os_symlink E src dst).
Proof.
  intros w. unfold os_symlink.
  destruct (os_fault _ _ _); [shape|].
  destruct (fs w !! dst); shape.
Qed.

End SyscallShapes.

(** Run the next system call, keeping only whether it returned. *)
Ltac step_sys_with lem w :=
  let r := fresh "r" in
  let f := fresh "f" in
  let H := fresh "Hsys" in
  let e := fresh "e" in
  destruct (lem w) as (r & f & H & [->|[e ->]]);
  rewrite H; clear H; cbn.

Ltac step_sys :=
  match goal with
  | |- context [os_makedirs ?E ?p ?w] =>
      step_sys_with (os_makedirs_shape E p) w
  | |- context [os_chdir ?E ?p ?w] => step_sys_with (os_chdir_shape E p) w
  | |- context [os_unlink ?E ?p ?w] => step_sys_with (os_unlink_shape E p) w
  | |- context [os_symlink ?E ?s ?d ?w] =>
      step_sys_with (os_symlink_shape E s d) w
  end.

Lemma isdir_stat (f : gmap string Node) (p : string) :
  isdir f p = true -> stat SYMLOOP_MAX f p = inr Dir.
Proof.
  unfold isdir. now destruct (stat SYMLOOP_MAX f p) as [e|[| |t]].
Qed.

Lemma isdir_exists (f : gmap string Node) (p : string) :
  isdir f p = true -> is_Some (f !! p).
Proof.
  intros H. apply isdir_stat in H. unfold SYMLOOP_MAX in H. simpl in H.
  destruct (f !! p); [eauto | discriminate].
Qed.

(** ** The build directory *)

Section BuildDir.

Context (E : Env) (self : Product).

Local Abbreviation b := (build_dir self).

(** [os.makedirs] raises nothing but an [OSError]. *)
Lemma os_makedirs_raise w x :
  result (os_makedirs E b) w = Raise x -> exists e, x = OSError e.
Proof.
  unfold result, os_makedirs.
  destruct (os_fault _ _ _); [|destruct (fs w !! b)]; cbn;
    intros [= <-]; eauto.
Qed.

Lemma os_makedirs_existing w :
  is_Some (fs w !! b) ->
  exists e, result (os_makedirs E b) w = Raise (OSError e).
Proof.
  intros [n Hn]. unfold result, os_makedirs.
  destruct (os_fault _ _ _); [eauto|]. rewrite Hn. eauto.
Qed.

(** With an entry at the path already, [os.makedirs] makes nothing. *)
Lemma os_makedirs_existing_run w :
  is_Some (fs w !! b) ->
  exists e,
    os_makedirs E b w
    = (Raise (OSError e), record (EvSys (SysMakedirs b)) w).
Proof.
  intros [n Hn]. unfold os_makedirs, parents_to_make. rewrite Hn.
  destruct (os_fault _ _ _); eauto.
Qed.

(** Whatever [os.makedirs] does, the guarded step returns normally. *)
Lemma make_build_dir_total w :
  result (TensorFlowSwiftAPIs.make_build_dir E self) w = Ok tt.
Proof.
  unfold result, TensorFlowSwiftAPIs.make_build_dir, try_except_OSError.
  fold b. destruct (os_makedirs E b w) as [[[]|x] w1] eqn:Hmk;
    [reflexivity|].
  assert (Hr : result (os_makedirs E b) w = Raise x)
    by (unfold result; now rewrite Hmk).
  apply os_makedirs_raise in Hr as [e ->]. reflexivity.
Qed.

(** With an entry at [build_dir] already, the guarded step changes
    nothing but the log. *)
Lemma make_build_dir_swallows w :
  is_Some (fs w !! b) ->
  TensorFlowSwiftAPIs.make_build_dir E self w
  = (Ok tt, record (EvSys (SysMakedirs b)) w).
Proof.
  intros Hb. destruct (os_makedirs_existing_run w Hb) as [e Hmk].
  unfold TensorFlowSwiftAPIs.make_build_dir, try_except_OSError.
  fold b. now rewrite Hmk.
Qed.

Lemma make_build_dir_log w :
  log (final (TensorFlowSwiftAPIs.make_build_dir E self) w)
  = log w ++ [EvSys (SysMakedirs b)]
  /\ cwd (final (TensorFlowSwiftAPIs.make_build_dir E self) w) = cwd w.
Proof.
  unfold final, TensorFlowSwiftAPIs.make_build_dir, try_except_OSError,
    os_makedirs. fold b.
  destruct (os_fault _ _ _); [|destruct (fs w !! b)]; now cbn.
Qed.

Lemma shell_pushd_blocked {A} (body : M A) w x w' :
  os_chdir E b w = (Raise x, w') ->
  shell_pushd E b body w = (Raise x, w').
Proof.
  intros H. unfold shell_pushd, os_getcwd, mbind, M_bind. now rewrite H.
Qed.

Lemma shell_pushd_entered {A} (body : M A) w w' :
  os_chdir E b w = (Ok tt, w') ->
  shell_pushd E b body w
  = (r ← body; os_chdir E (cwd w);; mret r) w'.
Proof.
  intros H. unfold shell_pushd, os_getcwd, mbind, M_bind. now rewrite H.
Qed.

Lemma os_chdir_result w r w' :
  os_chdir E b w = (r, w') ->
  log w' = log w ++ [EvSys (SysChdir b)]
  /\ cwd w' = match r with Ok _ => b | Raise _ => cwd w end.
Proof.
  unfold os_chdir.
  destruct (os_fault _ _ _); [|destruct (stat _ _ _) as [|[| |]]];
    intros [= <- <-]; now cbn.
Qed.

Lemma os_chdir_enters w :
  os_fault E (SysChdir b) w = None -> isdir (fs w) b = true ->
  os_chdir E b w = (Ok tt, with_cwd b (record (EvSys (SysChdir b)) w)).
Proof.
  intros Hperm Hdir. unfold os_chdir.
  now rewrite Hperm, (isdir_stat _ _ Hdir).
Qed.

End BuildDir.

(** What is left of [TensorFlowSwiftAPIs.build] once the host target has
    been accepted and the build directory dealt with: the [with] block,
    run from the world [w1] that [make_build_dir] left. *)
Lemma apis_build_from_pushd
    (E : Env) (self : Product) (host_target : string) (w w1 : World) :
  startswith host_target "macosx" = true
  \/ startswith host_target "linux" = true ->
  TensorFlowSwiftAPIs.make_build_dir E self w = (Ok tt, w1) ->
  exists lib_name,
    TensorFlowSwiftAPIs.build E self host_target w
    = shell_pushd E (build_dir self)
        (TensorFlowSwiftAPIs.run_cmake E self
           (os_path_join
              (toolchain_path E (install_destdir (args self))
                              (install_prefix (args self)))
              ["usr"; "bin"; "swiftc"])
           (realpath E w
              (os_path_join (source_dir self) [".."; "tensorflow"]))
           lib_name)
        w1.
Proof.
  intros Hp Hmk.
  unfold TensorFlowSwiftAPIs.build, TensorFlowSwiftAPIs.select_lib_name,
    os_path_realpath, mbind, M_bind.
  destruct Hp as [Hm|Hl].
  - rewrite Hm. cbn. rewrite Hmk. eauto.
  - rewrite Hl. destruct (startswith host_target "macosx");
      cbn; rewrite Hmk; eauto.
Qed.

(** Once inside the build directory, the generating CMake run comes
    first. *)
Lemma apis_pushd_entered_events
    (E : Env) (self : Product) (swiftc tfdir lib_name : string)
    (w w1 w2 : World) (evs : list Event) :
  log w1 = log w ++ evs ->
  os_chdir E (build_dir self) w1 = (Ok tt, w2) ->
  exists status rest,
    log (final (shell_pushd E (build_dir self)
                  (TensorFlowSwiftAPIs.run_cmake E self swiftc tfdir
                                                 lib_name)) w1)
    = log w ++ evs
      ++ EvSys (SysChdir (build_dir self))
      :: EvCall (build_dir self)
           (TensorFlowSwiftAPIs.configure_argv self swiftc tfdir lib_name)
           None status
      :: rest.
Proof.
  intros Hlog Hcd. unfold final.
  rewrite (shell_pushd_entered _ _ _ _ _ Hcd).
  apply os_chdir_result in Hcd as [Hlog2 Hcwd2].
  destruct w2 as [f2 d2 l2]; cbn in Hlog2, Hcwd2; subst d2 l2.
  rewrite Hlog.
  unfold TensorFlowSwiftAPIs.run_cmake, mbind, M_bind, mret, M_ret.
  step_call; [step_call; [step_sys|] |];
    eexists _, _; rewrite <- ?app_assoc; cbn; reflexivity.
Qed.

(** ** The runtime library build, step by step *)

(** The operations [TensorFlow.build] issues when no command fails. *)
Lemma tensorflow_build_events
    (E : Env) (self : Product) (host_target : string) (w : World) :
  let in_bazel_bin := fun name =>
    os_path_join (source_dir self) ["bazel-bin"; "tensorflow"; name] in
  let steps := fun suffixed unsuffixed =>
    [ EvPopen ["yes"; ""];
      EvCall (cwd w) [os_path_join (source_dir self) ["configure"]]
             (Some (StdoutOf ["yes"; ""])) 0;
      EvCall (cwd w)
             [ bazel (toolchain self); "build"; "-c"; "opt";
               "--define"; "framework_shared_object=false";
               "//tensorflow:tensorflow" ]
             None 0;
      EvSys (SysUnlink (in_bazel_bin unsuffixed));
      EvSys (SysSymlink (in_bazel_bin suffixed) (in_bazel_bin unsuffixed)) ]
  in
  failed_calls (events (TensorFlow.build E self host_target) w) = [] ->
  (startswith host_target "macosx" = true ->
   events (TensorFlow.build E self host_target) w
     = steps "libtensorflow.2.1.0.dylib" "libtensorflow.dylib")
  /\ (startswith host_target "linux" = true ->
      events (TensorFlow.build E self host_target) w
        = steps "libtensorflow.so.2.1.0" "libtensorflow.so").
Proof.
  cbv zeta.
  assert (Hexcl : startswith host_target "linux" = true ->
                  startswith host_target "macosx" = false).
  { intros Hl. destruct (startswith host_target "macosx") eqn:Hm;
      [|reflexivity]. apply macosx_not_linux in Hm. congruence. }
  unfold TensorFlow.build, TensorFlow.select_lib_names,
    TensorFlow.link_unsuffixed, TensorFlow.bazel_bin, TensorFlow.bazel_argv,
    try_except_OSError, pass.
  unfold events, final, mbind, M_bind, mret, M_ret, shell_Popen. cbn.
  step_call; [step_call|].
  - intros _. split; intros Hp; [|rewrite (Hexcl Hp)]; rewrite Hp; cbn;
      step_sys; step_sys; read_events; reflexivity.
  - read_events. unfold failed_calls. cbn.
    destruct (Z.eqb_spec s 0); [contradiction | discriminate].
  - read_events. unfold failed_calls. cbn.
    destruct (Z.eqb_spec s 0); [contradiction | discriminate].
Qed.


(** When no command fails, the first three statements of [TensorFlow.build]
    return normally. *)
Lemma tensorflow_tools_succeed
    (E : Env) (self : Product) (host_target : string) (w : World) :
  failed_calls (events (TensorFlow.build E self host_target) w) = [] ->
  result (tensorflow_tools E self) w = Ok tt.
Proof.
  unfold TensorFlow.build, tensorflow_tools.
  unfold result, events, final, mbind, M_bind, mret, M_ret, shell_Popen.
  cbn.
  step_call; [step_call; [reflexivity|] |];
    read_events; unfold failed_calls; cbn;
    (destruct (Z.eqb_spec s 0); [contradiction | discriminate]).
Qed.

(** After them comes the dispatch on the host target, and then the link
    step. *)
Lemma tensorflow_build_after_tools
    (E : Env) (self : Product) (host_target : string) (w built : World)
    (suffixed unsuffixed : string) :
  tensorflow_tools E self w = (Ok tt, built) ->
  TensorFlow.select_lib_names host_target built
    = (Ok (suffixed, unsuffixed), built) ->
  TensorFlow.build E self host_target w
  = TensorFlow.link_unsuffixed E self suffixed unsuffixed built.
Proof.
  unfold TensorFlow.build, tensorflow_tools, mbind, M_bind, shell_Popen.
  cbn. intros Htools Hnames.
  destruct (shell_call E _ (Some _) _) as [[[]|e1] w1]; [|discriminate].
  destruct (shell_call E _ None w1) as [[[]|e2] w2]; [|discriminate].
  injection Htools as ->. now rewrite Hnames.
Qed.

(** The link step where the operating system permits it and no directory
    is in the way. *)
Lemma link_unsuffixed_run
    (E : Env) (self : Product) (suffixed unsuffixed : string) (w : World) :
  let link := TensorFlow.bazel_bin self unsuffixed in
  let target := TensorFlow.bazel_bin self suffixed in
  permitted E (SysUnlink link) ->
  permitted E (SysSymlink target link) ->
  fs w !! link <> Some Dir ->
  TensorFlow.link_unsuffixed E self suffixed unsuffixed w
  = (Ok tt,
     {| fs := <[link := Link target]> (fs w); cwd := cwd w;
        log := log w ++ [EvSys (SysUnlink link);
                          EvSys (SysSymlink target link)] |}).
Proof.
  cbv zeta. intros Hunlink Hsymlink Hnotdir.
  unfold TensorFlow.link_unsuffixed, try_except_OSError, pass,
    os_unlink, os_symlink, mbind, M_bind, mret, M_ret.
  rewrite Hunlink.
  destruct (fs w !! TensorFlow.bazel_bin self unsuffixed)
    as [[| |t]|] eqn:Hl; try congruence; cbn;
    rewrite Hsymlink; cbn;
    rewrite ?lookup_delete_eq, ?Hl; unfold with_fs, record; cbn;
    rewrite ?insert_delete_eq, <- ?app_assoc; reflexivity.
Qed.

(** * The claims *)

(** C8: both adapters read the same flag.  For every product state and
    every host target, [TensorFlowSwiftAPIs.should_build] and
    [TensorFlow.should_build] return [args.build_tensorflow_swift_apis];
    hence, for two products created from one argument object, the runtime
    library is built exactly when the binding layer is, whatever the other
    fields of the products and whatever the host targets. *)
Theorem should_build_single_flag
    (a : Args) (tc1 tc2 : Toolchain) (src1 src2 bld1 bld2 : string)
    (host1 host2 : string) :
  let apis := mkProduct a tc1 src1 bld1 in
  let tensorflow := mkProduct a tc2 src2 bld2 in
  TensorFlowSwiftAPIs.should_build apis host1
    = build_tensorflow_swift_apis a
  /\ TensorFlow.should_build tensorflow host2
    = build_tensorflow_swift_apis a
  /\ (TensorFlow.should_build tensorflow host2 = true
      <-> TensorFlowSwiftAPIs.should_build apis host1 = true).
Proof. cbv zeta. unfold TensorFlowSwiftAPIs.should_build,
  TensorFlow.should_build. simpl. tauto. Qed.

(** C9: the runtime-library adapter is never installed.  For every product
    state (so for every value of [install_tensorflow_swift_apis] and of any
    other flag), host target and world, [TensorFlow.should_install] is
    [False], and [TensorFlow.install] returns normally, leaves the world as
    it found it and adds nothing to the log. *)
Theorem tensorflow_never_installed
    (self : Product) (host_target : string) (w : World) :
  TensorFlow.should_install self host_target = false
  /\ TensorFlow.install self host_target w = (Ok tt, w)
  /\ events (TensorFlow.install self host_target) w = [].
Proof.
  split; [reflexivity|]. split; [reflexivity|].
  apply events_of_log. unfold final. simpl. now rewrite app_nil_r.
Qed.

(** C7: the update-option smoke test runs the checkout script exactly
    once, with the arguments [--config <config path> --source-root
    <source root> --clone --update], and passes exactly when that run
    exits with status zero. *)
Theorem test_update_option_one_call
    (E : Env) (self : UpdateOptionTestCase.SchemeMockTestCase) (w : World) :
  let argv :=
    [ UpdateOptionTestCase.update_checkout_path self;
      "--config"; UpdateOptionTestCase.config_path self;
      "--source-root"; UpdateOptionTestCase.source_root self;
      "--clone"; "--update" ] in
  let status := (exec E argv None w).1 in
  events (UpdateOptionTestCase.test_update_option E self) w
    = [EvCall (cwd w) argv None status]
  /\ (UpdateOptionTestCase.passes
        (UpdateOptionTestCase.test_update_option E self) w = true
      <-> status = 0).
Proof.
  cbv zeta.
  unfold UpdateOptionTestCase.passes, result,
    UpdateOptionTestCase.test_update_option, UpdateOptionTestCase.call.
  split.
  - apply events_of_log. unfold final.
    destruct (exec E _ None w) as [status f]; simpl.
    now destruct (status =? 0).
  - destruct (exec E _ None w) as [status f]; simpl.
    destruct (Z.eqb_spec status 0); simpl; split; congruence.
Qed.

(** C6: a failing command aborts the step.  In [TensorFlowSwiftAPIs.build],
    [TensorFlowSwiftAPIs.install] and [TensorFlow.build] alike, whenever a
    command the method has run (the generating CMake run, [cmake --build],
    the configure script, the bazel build, the install target) came back
    with a non-zero status [s], that command is the last thing the method
    did and the method raises the failure carrying [s]. *)
Theorem command_failure_aborts_step
    (E : Env) (self : Product) (host_target : string) (w : World)
    (pre post : list Event) (c : string) (argv : list string)
    (i : option Pipe) (s : Z) :
  s <> 0 ->
  (events (TensorFlowSwiftAPIs.build E self host_target) w
     = pre ++ EvCall c argv i s :: post ->
   post = []
   /\ result (TensorFlowSwiftAPIs.build E self host_target) w
      = Raise (CommandFailed s))
  /\ (events (TensorFlowSwiftAPIs.install E self host_target) w
        = pre ++ EvCall c argv i s :: post ->
      post = []
      /\ result (TensorFlowSwiftAPIs.install E self host_target) w
         = Raise (CommandFailed s))
  /\ (events (TensorFlow.build E self host_target) w
        = pre ++ EvCall c argv i s :: post ->
      post = []
      /\ result (TensorFlow.build E self host_target) w
         = Raise (CommandFailed s)).
Proof.
  intros Hs. split; [|split]; intros Heq.
  - exact (disciplined_events _ w
             (disciplined_apis_build E self host_target)
             _ _ _ _ _ _ Heq Hs).
  - exact (disciplined_events _ w
             (disciplined_apis_install E self host_target)
             _ _ _ _ _ _ Heq Hs).
  - exact (disciplined_events _ w
             (disciplined_tensorflow_build E self host_target)
             _ _ _ _ _ _ Heq Hs).
Qed.

Lemma command_failure_aborts_step_witness :
  1 <> 0
  /\ result (TensorFlow.build (Sample.env_failing "/bin/bazel" 1)
                              Sample.tensorflow "linux-x86_64")
            Sample.empty_world
     = Raise (CommandFailed 1).
Proof.
  split; [lia|].
  refine (proj2 (proj2 (proj2
    (command_failure_aborts_step
       (Sample.env_failing "/bin/bazel" 1) Sample.tensorflow "linux-x86_64"
       Sample.empty_world
       [ EvPopen ["yes"; ""];
         EvCall "/" ["/src/tensorflow/configure"]
                (Some (StdoutOf ["yes"; ""])) 0 ]
       [] "/"
       [ "/bin/bazel"; "build"; "-c"; "opt";
         "--define"; "framework_shared_object=false";
         "//tensorflow:tensorflow" ]
       None 1 _)) _)).
  - lia.
  - vm_compute. reflexivity.
Defined.

(** C3, as the code has it: for every host target that starts with neither
    [macosx] nor [linux], [TensorFlowSwiftAPIs.build] raises a
    [RuntimeError] before it does anything, and [TensorFlow.build], whose
    test of the host target comes after the configure script and the bazel
    build, raises a [RuntimeError] whenever neither of these two commands
    failed; in no run does it reach the unlink or the symlink, so it never
    uses a library filename.  Every host target with one of the two
    prefixes is accepted by the test of both methods. *)
Theorem host_target_dispatch
    (E : Env) (self : Product) (host_target : string) (w : World) :
  (startswith host_target "macosx" = false ->
   startswith host_target "linux" = false ->
   TensorFlowSwiftAPIs.build E self host_target w
     = (Raise (RuntimeError ("Unknown host target " +:+ host_target)), w)
   /\ (failed_calls (events (TensorFlow.build E self host_target) w) = [] ->
       result (TensorFlow.build E self host_target) w
         = Raise (RuntimeError ("unknown host target " +:+ host_target)))
   /\ Forall (fun ev => forall s, ev <> EvSys s)
             (events (TensorFlow.build E self host_target) w))
  /\ (startswith host_target "macosx" = true
      \/ startswith host_target "linux" = true ->
      (exists lib_name,
         TensorFlowSwiftAPIs.select_lib_name host_target w
           = (Ok lib_name, w))
      /\ (exists names,
            TensorFlow.select_lib_names host_target w = (Ok names, w))).
Proof.
  split.
  - intros Hm Hl. split; [|split].
    + unfold TensorFlowSwiftAPIs.build, TensorFlowSwiftAPIs.select_lib_name.
      rewrite Hm, Hl. reflexivity.
    + unfold TensorFlow.build, TensorFlow.select_lib_names. rewrite Hm, Hl.
      unfold result, events, final, mbind, M_bind, shell_Popen. cbn.
      step_call; [step_call; [reflexivity|] |]; read_events;
        unfold failed_calls; cbn;
        (destruct (Z.eqb_spec s 0); [contradiction | discriminate]).
    + unfold TensorFlow.build, TensorFlow.select_lib_names. rewrite Hm, Hl.
      unfold events, final, mbind, M_bind, shell_Popen. cbn.
      step_call; [step_call|]; read_events;
        repeat (constructor; [discriminate|]); constructor.
  - intros Hp. unfold TensorFlowSwiftAPIs.select_lib_name,
      TensorFlow.select_lib_names.
    destruct Hp as [Hm|Hl].
    + rewrite Hm. split; eexists; reflexivity.
    + rewrite Hl.
      destruct (startswith host_target "macosx"); split; eexists; reflexivity.
Qed.

(** C3 as written fails: on an unrecognised host target, when the configure
    script exits with status 1, [TensorFlow.build] raises that command
    failure and no [RuntimeError]. *)
Lemma tensorflow_build_late_dispatch :
  let run :=
    result (TensorFlow.build
              (Sample.env_failing "/src/tensorflow/configure" 1)
              Sample.tensorflow "windows-x86_64")
           Sample.empty_world in
  startswith "windows-x86_64" "macosx" = false
  /\ startswith "windows-x86_64" "linux" = false
  /\ run = Raise (CommandFailed 1)
  /\ ~ (exists msg, run = Raise (RuntimeError msg)).
Proof.
  cbv zeta. split; [reflexivity|]. split; [reflexivity|].
  assert (Hrun : result (TensorFlow.build
              (Sample.env_failing "/src/tensorflow/configure" 1)
              Sample.tensorflow "windows-x86_64")
           Sample.empty_world = Raise (CommandFailed 1))
    by (vm_compute; reflexivity).
  split; [exact Hrun|]. intros [msg Hmsg]. congruence.
Qed.

Lemma host_target_dispatch_witness :
  result (TensorFlow.build (Sample.env_exit 0) Sample.tensorflow
                           "windows-x86_64")
         Sample.empty_world
    = Raise (RuntimeError "unknown host target windows-x86_64")
  /\ (exists names,
        TensorFlow.select_lib_names "linux-aarch64" Sample.empty_world
          = (Ok names, Sample.empty_world)).
Proof.
  split.
  - refine (proj1 (proj2 (proj1
      (host_target_dispatch (Sample.env_exit 0) Sample.tensorflow
                            "windows-x86_64" Sample.empty_world)
      eq_refl eq_refl)) _).
    vm_compute. reflexivity.
  - refine (proj2 (proj2
      (host_target_dispatch (Sample.env_exit 0) Sample.tensorflow
                            "linux-aarch64" Sample.empty_world)
      (or_intror eq_refl))).
Defined.

(** C1: the steps of [TensorFlow.build].  For every host target that
    starts with [macosx] or [linux], in every run in which no command
    fails, the method does exactly this, in this order: it starts
    [yes ''], runs [source_dir/configure] with the output of that process
    as standard input, runs bazel with the arguments [build -c opt --define
    framework_shared_object=false //tensorflow:tensorflow], unlinks the
    unsuffixed name in [source_dir/bazel-bin/tensorflow] and then creates
    it as a symbolic link to the version-suffixed name:
    [libtensorflow.2.1.0.dylib] and [libtensorflow.dylib] for [macosx],
    [libtensorflow.so.2.1.0] and [libtensorflow.so] for [linux].  Where the
    operating system permits the two calls and the unsuffixed name is no
    directory, the method returns normally, and the filesystem is the one
    the bazel build left with the unsuffixed name, whatever was there,
    replaced by the link. *)
Theorem tensorflow_build_steps
    (E : Env) (self : Product) (host_target : string) (w : World) :
  let run := TensorFlow.build E self host_target in
  let built := final (tensorflow_tools E self) w in
  let in_bazel_bin := fun name =>
    os_path_join (source_dir self) ["bazel-bin"; "tensorflow"; name] in
  let steps := fun suffixed unsuffixed =>
    [ EvPopen ["yes"; ""];
      EvCall (cwd w) [os_path_join (source_dir self) ["configure"]]
             (Some (StdoutOf ["yes"; ""])) 0;
      EvCall (cwd w)
             [ bazel (toolchain self); "build"; "-c"; "opt";
               "--define"; "framework_shared_object=false";
               "//tensorflow:tensorflow" ]
             None 0;
      EvSys (SysUnlink (in_bazel_bin unsuffixed));
      EvSys (SysSymlink (in_bazel_bin suffixed) (in_bazel_bin unsuffixed)) ]
  in
  let outcome := fun suffixed unsuffixed =>
    events run w = steps suffixed unsuffixed
    /\ (permitted E (SysUnlink (in_bazel_bin unsuffixed)) ->
        permitted E (SysSymlink (in_bazel_bin suffixed)
                                (in_bazel_bin unsuffixed)) ->
        fs built !! in_bazel_bin unsuffixed <> Some Dir ->
        result run w = Ok tt
        /\ fs (final run w)
           = <[in_bazel_bin unsuffixed := Link (in_bazel_bin suffixed)]>
               (fs built))
  in
  failed_calls (events run w) = [] ->
  (startswith host_target "macosx" = true ->
   outcome "libtensorflow.2.1.0.dylib" "libtensorflow.dylib")
  /\ (startswith host_target "linux" = true ->
      outcome "libtensorflow.so.2.1.0" "libtensorflow.so").
Proof.
  cbv zeta. intros Hquiet.
  pose proof (tensorflow_build_events E self host_target w Hquiet)
    as [Hmac Hlin].
  pose proof (tensorflow_tools_succeed E self host_target w Hquiet) as Hok.
  unfold result, final in *.
  destruct (tensorflow_tools E self w) as [r built] eqn:Htools.
  cbn in Hok. subst r. cbn [snd].
  assert (Hlink : forall suffixed unsuffixed,
    TensorFlow.select_lib_names host_target built
      = (Ok (suffixed, unsuffixed), built) ->
    permitted E (SysUnlink (TensorFlow.bazel_bin self unsuffixed)) ->
    permitted E (SysSymlink (TensorFlow.bazel_bin self suffixed)
                            (TensorFlow.bazel_bin self unsuffixed)) ->
    fs built !! TensorFlow.bazel_bin self unsuffixed <> Some Dir ->
    (TensorFlow.build E self host_target w).1 = Ok tt
    /\ fs (TensorFlow.build E self host_target w).2
       = <[TensorFlow.bazel_bin self unsuffixed
             := Link (TensorFlow.bazel_bin self suffixed)]> (fs built)).
  { intros sfx unsfx Hnames Hu Hs Hnd.
    rewrite (tensorflow_build_after_tools E self host_target w built
               sfx unsfx Htools Hnames).
    now rewrite (link_unsuffixed_run E self sfx unsfx built Hu Hs Hnd). }
  split; intros Hp.
  - split; [exact (Hmac Hp)|]. apply Hlink.
    unfold TensorFlow.select_lib_names. now rewrite Hp.
  - split; [exact (Hlin Hp)|]. apply Hlink.
    unfold TensorFlow.select_lib_names.
    destruct (startswith host_target "macosx") eqn:Hm.
    + apply macosx_not_linux in Hm. congruence.
    + now rewrite Hp.
Qed.

Lemma tensorflow_build_steps_witness :
  let stale :=
    Sample.world
      {[ "/" := Dir;
         "/src/tensorflow/bazel-bin/tensorflow/libtensorflow.dylib"
           := Link "libtensorflow.1.15.0.dylib" ]} in
  let run :=
    TensorFlow.build (Sample.env_exit 0) Sample.tensorflow "macosx-x86_64" in
  events run stale
  = [ EvPopen ["yes"; ""];
      EvCall "/" ["/src/tensorflow/configure"]
             (Some (StdoutOf ["yes"; ""])) 0;
      EvCall "/"
             [ "/bin/bazel"; "build"; "-c"; "opt";
               "--define"; "framework_shared_object=false";
               "//tensorflow:tensorflow" ]
             None 0;
      EvSys (SysUnlink
               "/src/tensorflow/bazel-bin/tensorflow/libtensorflow.dylib");
      EvSys (SysSymlink
               "/src/tensorflow/bazel-bin/tensorflow/libtensorflow.2.1.0.dylib"
               "/src/tensorflow/bazel-bin/tensorflow/libtensorflow.dylib") ]
  /\ result run stale = Ok tt
  /\ fs (final run stale)
       !! "/src/tensorflow/bazel-bin/tensorflow/libtensorflow.dylib"
     = Some (Link
         "/src/tensorflow/bazel-bin/tensorflow/libtensorflow.2.1.0.dylib").
Proof.
  cbv zeta.
  pose proof
    (tensorflow_build_steps (Sample.env_exit 0) Sample.tensorflow
       "macosx-x86_64"
       (Sample.world
          {[ "/" := Dir;
             "/src/tensorflow/bazel-bin/tensorflow/libtensorflow.dylib"
               := Link "libtensorflow.1.15.0.dylib" ]})) as Hsteps.
  cbv zeta in Hsteps.
  destruct Hsteps as [Hmac _]; [vm_compute; reflexivity|].
  destruct (Hmac eq_refl) as [Hevents Hfs].
  split; [exact Hevents|].
  destruct Hfs as [Hok Hlink].
  - intros w. reflexivity.
  - intros w. reflexivity.
  - vm_compute. discriminate.
  - split; [exact Hok|]. rewrite Hlink. apply lookup_insert_eq.
Defined.

(** C2: the steps of [TensorFlowSwiftAPIs.build] and [install].  For every
    host target that starts with [macosx] or [linux], in every run in which
    entering the build directory succeeds and no command fails, [build]
    makes the build directory, changes into it, runs the toolchain's CMake
    there with generator Ninja and exactly the listed [-D] variables, [-B]
    and [-S], then runs [cmake --build] on the build directory and changes
    back.  [should_install] is the flag [install_tensorflow_swift_apis],
    and [install] runs [cmake --build <build_dir> --target install] and
    nothing else. *)
Theorem apis_build_steps
    (E : Env) (self : Product) (host_target : string) (w : World) :
  let swiftc :=
    os_path_join
      (toolchain_path E (install_destdir (args self))
                      (install_prefix (args self)))
      ["usr"; "bin"; "swiftc"] in
  let tensorflow_source_dir :=
    realpath E w (os_path_join (source_dir self) [".."; "tensorflow"]) in
  let steps := fun lib_name =>
    [ EvSys (SysMakedirs (build_dir self));
      EvSys (SysChdir (build_dir self));
      EvCall (build_dir self)
        [ cmake (toolchain self);
          "-G"; "Ninja";
          "-D"; "BUILD_SHARED_LIBS=YES";
          "-D"; "CMAKE_INSTALL_PREFIX=" +:+ install_destdir (args self)
                  +:+ "/usr";
          "-D"; "CMAKE_MAKE_PROGRAM=" +:+ ninja (toolchain self);
          "-D"; "CMAKE_Swift_COMPILER=" +:+ swiftc;
          "-D"; "TensorFlow_INCLUDE_DIR=" +:+ tensorflow_source_dir;
          "-D"; "TensorFlow_LIBRARY="
                  +:+ os_path_join tensorflow_source_dir
                        ["bazel-bin"; "tensorflow"; lib_name];
          "-D"; "CMAKE_Swift_FLAGS=-L"
                  +:+ os_path_join tensorflow_source_dir
                        ["bazel-bin"; "tensorflow"];
          "-B"; build_dir self;
          "-S"; source_dir self ]
        None 0;
      EvCall (build_dir self)
        [ cmake (toolchain self); "--build"; build_dir self ] None 0;
      EvSys (SysChdir (cwd w)) ] in
  let install_argv :=
    [ cmake (toolchain self); "--build"; build_dir self;
      "--target"; "install" ] in
  (result (os_chdir E (build_dir self))
          (final (TensorFlowSwiftAPIs.make_build_dir E self) w) = Ok tt ->
   failed_calls (events (TensorFlowSwiftAPIs.build E self host_target) w)
     = [] ->
   (startswith host_target "macosx" = true ->
    events (TensorFlowSwiftAPIs.build E self host_target) w
      = steps "libtensorflow.dylib")
   /\ (startswith host_target "linux" = true ->
       events (TensorFlowSwiftAPIs.build E self host_target) w
         = steps "libtensorflow.so"))
  /\ TensorFlowSwiftAPIs.should_install self host_target
     = install_tensorflow_swift_apis (args self)
  /\ events (TensorFlowSwiftAPIs.install E self host_target) w
     = [EvCall (cwd w) install_argv None (exec E install_argv None w).1].
Proof.
  cbv zeta. split; [|split; [reflexivity|]].
  - assert (Hexcl : startswith host_target "linux" = true ->
                    startswith host_target "macosx" = false).
    { intros Hl. destruct (startswith host_target "macosx") eqn:Hm;
        [|reflexivity]. apply macosx_not_linux in Hm. congruence. }
    unfold TensorFlowSwiftAPIs.build, TensorFlowSwiftAPIs.select_lib_name,
      TensorFlowSwiftAPIs.make_build_dir, TensorFlowSwiftAPIs.run_cmake,
      shell_pushd, try_except_OSError, pass, os_path_realpath, os_getcwd.
    unfold result, events, final, mbind, M_bind, mret, M_ret. cbn.
    destruct (startswith host_target "macosx") eqn:Hm;
      [| destruct (startswith host_target "linux") eqn:Hl ]; cbn;
      [ | | intros _ _; split; discriminate ].
    all: step_sys; (step_sys; [| intros Hcd; discriminate Hcd ]).
    all: intros _.
    all: step_call; [step_call; [step_sys|] |].
    all: read_events.
    all: try (unfold failed_calls; cbn;
              destruct (Z.eqb_spec s 0); [contradiction | discriminate]).
    all: intros _; split; intros Hp;
      first [ discriminate Hp | discriminate (Hexcl Hp) | reflexivity ].
  - unfold TensorFlowSwiftAPIs.install, TensorFlowSwiftAPIs.install_argv,
      shell_call, events, final.
    destruct (exec E _ None w) as [status f]; cbn.
    destruct (status =? 0); read_events; reflexivity.
Qed.

Lemma apis_build_steps_witness :
  events (TensorFlowSwiftAPIs.build (Sample.env_exit 0) Sample.apis
                                    "linux-x86_64")
         Sample.empty_world
  = [ EvSys (SysMakedirs "/build/tensorflow-swift-apis");
      EvSys (SysChdir "/build/tensorflow-swift-apis");
      EvCall "/build/tensorflow-swift-apis"
        [ "/bin/cmake";
          "-G"; "Ninja";
          "-D"; "BUILD_SHARED_LIBS=YES";
          "-D"; "CMAKE_INSTALL_PREFIX=/dest/usr";
          "-D"; "CMAKE_MAKE_PROGRAM=/bin/ninja";
          "-D"; "CMAKE_Swift_COMPILER=/dest/usr/bin/swiftc";
          "-D"; "TensorFlow_INCLUDE_DIR=/src/tensorflow-swift-apis/../tensorflow";
          "-D"; "TensorFlow_LIBRARY=/src/tensorflow-swift-apis/../tensorflow/bazel-bin/tensorflow/libtensorflow.so";
          "-D"; "CMAKE_Swift_FLAGS=-L/src/tensorflow-swift-apis/../tensorflow/bazel-bin/tensorflow";
          "-B"; "/build/tensorflow-swift-apis";
          "-S"; "/src/tensorflow-swift-apis" ]
        None 0;
      EvCall "/build/tensorflow-swift-apis"
        [ "/bin/cmake"; "--build"; "/build/tensorflow-swift-apis" ] None 0;
      EvSys (SysChdir "/") ].
Proof.
  refine (proj2 (proj1
    (apis_build_steps (Sample.env_exit 0) Sample.apis "linux-x86_64"
                      Sample.empty_world) _ _) _).
  - vm_compute. reflexivity.
  - vm_compute. reflexivity.
  - reflexivity.
Defined.

(** C4: the symlink step is idempotent.  Where the operating system
    permits the two calls and the unsuffixed name is not a directory: if
    the name is absent, the [unlink] raises and the exception is ignored;
    if it is present, it is removed; either way the step returns normally
    with the unsuffixed name linked to the version-suffixed name and every
    other entry as before, and running the step a second time returns
    normally again and leaves the same filesystem. *)
Theorem link_unsuffixed_idempotent
    (E : Env) (self : Product) (suffixed unsuffixed : string) (w : World) :
  let link := TensorFlow.bazel_bin self unsuffixed in
  let target := TensorFlow.bazel_bin self suffixed in
  let step := TensorFlow.link_unsuffixed E self suffixed unsuffixed in
  permitted E (SysUnlink link) ->
  permitted E (SysSymlink target link) ->
  fs w !! link <> Some Dir ->
  (fs w !! link = None ->
   result (os_unlink E link) w = Raise (OSError ENOENT))
  /\ (is_Some (fs w !! link) ->
      result (os_unlink E link) w = Ok tt
      /\ fs (final (os_unlink E link) w) = delete link (fs w))
  /\ result step w = Ok tt
  /\ fs (final step w) = <[link := Link target]> (fs w)
  /\ events step w = [EvSys (SysUnlink link); EvSys (SysSymlink target link)]
  /\ result (step;; step) w = Ok tt
  /\ fs (final (step;; step) w) = fs (final step w).
Proof.
  cbv zeta. intros Hunlink Hsymlink Hnotdir.
  set (link := TensorFlow.bazel_bin self unsuffixed) in *.
  set (target := TensorFlow.bazel_bin self suffixed) in *.
  assert (Hstep : forall w0, fs w0 !! link <> Some Dir ->
    TensorFlow.link_unsuffixed E self suffixed unsuffixed w0
    = (Ok tt, {| fs := <[link := Link target]> (fs w0); cwd := cwd w0;
                 log := log w0 ++ [EvSys (SysUnlink link);
                                   EvSys (SysSymlink target link)] |})).
  { intros w0 Hw0.
    unfold TensorFlow.link_unsuffixed, try_except_OSError, pass,
      os_unlink, os_symlink, mbind, M_bind, mret, M_ret.
    fold link target. rewrite Hunlink.
    destruct (fs w0 !! link) as [[| |t]|] eqn:Hl; try congruence; cbn;
      rewrite Hsymlink; cbn;
      rewrite ?lookup_delete_eq, ?Hl; unfold with_fs, record; cbn;
      rewrite ?insert_delete_eq, <- ?app_assoc; reflexivity. }
  split; [|split].
  - intros Hnone. unfold result, os_unlink. now rewrite Hunlink, Hnone.
  - intros [n Hn]. unfold result, final, os_unlink. rewrite Hunlink, Hn.
    destruct n; [congruence | now split | now split].
  - unfold events, result, final, mbind, M_bind.
    rewrite (Hstep w Hnotdir). cbn.
    rewrite Hstep by (cbn; rewrite lookup_insert_eq; discriminate). cbn.
    rewrite drop_app_length, insert_insert_eq. repeat split.
Qed.

(** A directory at the unsuffixed name is not removed, and the step then
    fails: the hypothesis of [link_unsuffixed_idempotent] on the entry is
    needed. *)
Lemma link_unsuffixed_directory
    (E : Env) (self : Product) (suffixed unsuffixed : string) (w : World) :
  permitted E (SysUnlink (TensorFlow.bazel_bin self unsuffixed)) ->
  permitted E (SysSymlink (TensorFlow.bazel_bin self suffixed)
                          (TensorFlow.bazel_bin self unsuffixed)) ->
  fs w !! TensorFlow.bazel_bin self unsuffixed = Some Dir ->
  result (TensorFlow.link_unsuffixed E self suffixed unsuffixed) w
  = Raise (OSError EEXIST).
Proof.
  intros Hunlink Hsymlink Hdir.
  unfold result, TensorFlow.link_unsuffixed, try_except_OSError, pass,
    os_unlink, os_symlink, mbind, M_bind, mret, M_ret.
  rewrite Hunlink, Hdir. cbn. now rewrite Hsymlink, Hdir.
Qed.

Lemma link_unsuffixed_idempotent_witness :
  let stale :=
    Sample.world
      {[ "/src/tensorflow/bazel-bin/tensorflow/libtensorflow.so"
           := Link "libtensorflow.so.1.15.0" ]} in
  result (TensorFlow.link_unsuffixed (Sample.env_exit 0) Sample.tensorflow
            "libtensorflow.so.2.1.0" "libtensorflow.so")
         stale
  = Ok tt.
Proof.
  cbv zeta.
  refine (proj1 (proj2 (proj2
    (link_unsuffixed_idempotent (Sample.env_exit 0) Sample.tensorflow
       "libtensorflow.so.2.1.0" "libtensorflow.so" _ _ _ _)))).
  - intros w. reflexivity.
  - intros w. reflexivity.
  - vm_compute. discriminate.
Defined.

(** C5: making the build directory is idempotent.  When [build_dir] is
    already a directory, [os.makedirs] raises an [OSError], the [try]
    swallows it and the step returns normally without touching the
    filesystem, however often it is repeated; and for a recognised host
    target, unless the operating system refuses the change of directory,
    the build goes on into [build_dir] and to the generating CMake run. *)
Theorem make_build_dir_idempotent
    (E : Env) (self : Product) (host_target : string) (w : World) :
  let b := build_dir self in
  let w1 := record (EvSys (SysMakedirs b)) w in
  let step := TensorFlowSwiftAPIs.make_build_dir E self in
  let swiftc :=
    os_path_join
      (toolchain_path E (install_destdir (args self))
                      (install_prefix (args self)))
      ["usr"; "bin"; "swiftc"] in
  let tensorflow_source_dir :=
    realpath E w (os_path_join (source_dir self) [".."; "tensorflow"]) in
  isdir (fs w) b = true ->
  (exists e, result (os_makedirs E b) w = Raise (OSError e))
  /\ step w = (Ok tt, w1)
  /\ result (step;; step) w = Ok tt
  /\ fs (final (step;; step) w) = fs w
  /\ (startswith host_target "macosx" = true
      \/ startswith host_target "linux" = true ->
      os_fault E (SysChdir b) w1 = None ->
      exists lib_name status rest,
        events (TensorFlowSwiftAPIs.build E self host_target) w
        = EvSys (SysMakedirs b)
          :: EvSys (SysChdir b)
          :: EvCall b
               (TensorFlowSwiftAPIs.configure_argv
                  self swiftc tensorflow_source_dir lib_name)
               None status
          :: rest).
Proof.
  cbv zeta. intros Hdir.
  assert (Hswallow : forall w0, isdir (fs w0) (build_dir self) = true ->
    TensorFlowSwiftAPIs.make_build_dir E self w0
    = (Ok tt, record (EvSys (SysMakedirs (build_dir self))) w0)).
  { intros w0 H0.
    exact (make_build_dir_swallows E self w0 (isdir_exists _ _ H0)). }
  split; [exact (os_makedirs_existing E self w (isdir_exists _ _ Hdir))|].
  split; [exact (Hswallow w Hdir)|].
  split; [|split].
  - unfold result, mbind, M_bind. rewrite (Hswallow w Hdir).
    now rewrite Hswallow.
  - unfold final, mbind, M_bind. rewrite (Hswallow w Hdir).
    now rewrite Hswallow.
  - intros Hp Hperm.
    destruct (apis_build_from_pushd E self host_target w _ Hp
                (Hswallow w Hdir)) as [lib_name Hbuild].
    pose proof (os_chdir_enters E self _ Hperm Hdir) as Hcd.
    match type of Hbuild with
    | _ = shell_pushd _ _ (TensorFlowSwiftAPIs.run_cmake _ _ ?s ?t _) _ =>
        destruct (apis_pushd_entered_events E self s t lib_name w
                    (record (EvSys (SysMakedirs (build_dir self))) w) _
                    [EvSys (SysMakedirs (build_dir self))] eq_refl Hcd)
          as (status & rest & Hlog)
    end.
    exists lib_name, status, rest.
    apply events_of_log. unfold final in *. now rewrite Hbuild, Hlog.
Qed.

Lemma make_build_dir_idempotent_witness :
  let w := Sample.world {[ "/build/tensorflow-swift-apis" := Dir ]} in
  TensorFlowSwiftAPIs.make_build_dir (Sample.env_exit 0) Sample.apis w
  = (Ok tt, record (EvSys (SysMakedirs "/build/tensorflow-swift-apis")) w).
Proof.
  cbv zeta.
  refine (proj1 (proj2
    (make_build_dir_idempotent (Sample.env_exit 0) Sample.apis
       "linux-x86_64" _ _))).
  vm_compute. reflexivity.
Defined.

(** C10, as the code has it: the [try] around [os.makedirs] swallows every
    [OSError], whatever its cause, and the step returns normally.  For a
    recognised host target the build goes on to change into [build_dir].
    The generating CMake run follows when that change of directory
    succeeds; when it fails, its exception leaves [build] and no command is
    run. *)
Theorem makedirs_failure_swallowed
    (E : Env) (self : Product) (host_target : string) (w : World)
    (e : Errno) :
  let b := build_dir self in
  let w1 := final (TensorFlowSwiftAPIs.make_build_dir E self) w in
  let swiftc :=
    os_path_join
      (toolchain_path E (install_destdir (args self))
                      (install_prefix (args self)))
      ["usr"; "bin"; "swiftc"] in
  let tensorflow_source_dir :=
    realpath E w (os_path_join (source_dir self) [".."; "tensorflow"]) in
  result (os_makedirs E b) w = Raise (OSError e) ->
  result (TensorFlowSwiftAPIs.make_build_dir E self) w = Ok tt
  /\ (startswith host_target "macosx" = true
      \/ startswith host_target "linux" = true ->
      (result (os_chdir E b) w1 = Ok tt ->
       exists lib_name status rest,
         events (TensorFlowSwiftAPIs.build E self host_target) w
         = EvSys (SysMakedirs b)
           :: EvSys (SysChdir b)
           :: EvCall b
                (TensorFlowSwiftAPIs.configure_argv
                   self swiftc tensorflow_source_dir lib_name)
                None status
           :: rest)
      /\ (forall x, result (os_chdir E b) w1 = Raise x ->
          result (TensorFlowSwiftAPIs.build E self host_target) w = Raise x
          /\ events (TensorFlowSwiftAPIs.build E self host_target) w
             = [EvSys (SysMakedirs b); EvSys (SysChdir b)])).
Proof.
  cbv zeta. intros _.
  pose proof (make_build_dir_total E self w) as Hok.
  destruct (make_build_dir_log E self w) as [Hlog1 _].
  split; [exact Hok|]. intros Hp.
  unfold result, final in *.
  destruct (TensorFlowSwiftAPIs.make_build_dir E self w) as [r w1] eqn:Hmk.
  cbn in Hok, Hlog1. subst r. cbn [snd].
  destruct (apis_build_from_pushd E self host_target w _ Hp Hmk)
    as [lib_name Hbuild].
  destruct (os_chdir E (build_dir self) w1) as [r w2] eqn:Hcd.
  cbn [fst]. split.
  - intros ->.
    match type of Hbuild with
    | _ = shell_pushd _ _ (TensorFlowSwiftAPIs.run_cmake _ _ ?s ?t _) _ =>
        destruct (apis_pushd_entered_events E self s t lib_name w w1 _
                    [EvSys (SysMakedirs (build_dir self))] Hlog1 Hcd)
          as (status & rest & Hlog)
    end.
    exists lib_name, status, rest.
    apply events_of_log. unfold final in *. now rewrite Hbuild, Hlog.
  - intros x ->.
    rewrite (shell_pushd_blocked E self _ _ _ _ Hcd) in Hbuild.
    apply os_chdir_result in Hcd as [Hlog _].
    split.
    + now rewrite Hbuild.
    + apply events_of_log. unfold final.
      rewrite Hbuild. cbn [snd]. rewrite Hlog, Hlog1.
      now rewrite <- app_assoc.
Qed.

(** C10 as written fails.  Where creating the directory is not permitted,
    and where the path is taken by a regular file, [os.makedirs] raises an
    [OSError] that is swallowed, but the change of directory that follows
    raises in its turn, [build] ends with that exception and no CMake
    command is run. *)
Lemma makedirs_swallowed_then_no_cmake :
  let b := build_dir Sample.apis in
  let denied :=
    TensorFlowSwiftAPIs.build Sample.env_readonly Sample.apis
                              "linux-x86_64" in
  let taken := Sample.world {[ b := File ]} in
  let clash :=
    TensorFlowSwiftAPIs.build (Sample.env_exit 0) Sample.apis
                              "linux-x86_64" in
  (result (os_makedirs Sample.env_readonly b) Sample.empty_world
     = Raise (OSError EACCES)
   /\ result denied Sample.empty_world = Raise (OSError ENOENT)
   /\ calls (events denied Sample.empty_world) = [])
  /\ (result (os_makedirs (Sample.env_exit 0) b) taken
        = Raise (OSError EEXIST)
      /\ result clash taken = Raise (OSError ENOTDIR)
      /\ calls (events clash taken) = []).
Proof. vm_compute. repeat split. Qed.

Lemma makedirs_failure_swallowed_witness :
  result (os_makedirs Sample.env_readonly (build_dir Sample.apis))
         Sample.empty_world
    = Raise (OSError EACCES)
  /\ result (TensorFlowSwiftAPIs.make_build_dir Sample.env_readonly
                                                Sample.apis)
            Sample.empty_world
     = Ok tt.
Proof.
  split; [vm_compute; reflexivity|].
  refine (proj1
    (makedirs_failure_swallowed Sample.env_readonly Sample.apis
       "linux-x86_64" Sample.empty_world EACCES _)).
  vm_compute. reflexivity.
Defined.

(** ** Parent directories *)

Example ancestors_of_build_dir :
  ancestors "/build/tensorflow-swift-apis" = ["/build"]
  /\ ancestors "out//swift/apis/" = ["out"; "out//swift"]
  /\ ancestors "/" = [].
Proof. repeat split. Qed.

(** [os.makedirs] makes the missing parents too, and a call that is
    refused at the last directory leaves them behind. *)
Example os_makedirs_parents :
  let refusing : Env :=
    {| exec := fun _ _ w => (0, fs w);
       os_fault := fun s _ =>
         match s with
         | SysMakedirs "/build/tensorflow-swift-apis" => Some EIO
         | _ => None
         end;
       realpath := fun _ p => p;
       toolchain_path := fun destdir _ => destdir |} in
  let b := "/build/tensorflow-swift-apis" in
  (result (os_makedirs (Sample.env_exit 0) b) Sample.empty_world = Ok tt
   /\ fs (final (os_makedirs (Sample.env_exit 0) b) Sample.empty_world)
      = {[ "/" := Dir; "/build" := Dir; b := Dir ]})
  /\ (result (os_makedirs refusing b) Sample.empty_world
        = Raise (OSError EIO)
      /\ fs (final (os_makedirs refusing b) Sample.empty_world)
         = {[ "/" := Dir; "/build" := Dir ]}).
Proof. vm_compute. repeat split. Qed.






(** * Further properties of the adapters *)

(** ** Relating the world before and after *)

Section Stability.

Context (R : World -> World -> Prop).

Lemma stable_ret `{!Reflexive R} {A} (a : A) : stable R (mret a).
Proof. intros w. unfold final. cbn. reflexivity. Qed.

Lemma stable_raise `{!Reflexive R} {A} (e : Exn) : stable R (@raise A e).
Proof. intros w. unfold final. cbn. reflexivity. Qed.

Lemma stable_bind `{!Transitive R} {A B} (m : M A) (f : A -> M B) :
  stable R m -> (forall a, stable R (f a)) -> stable R (m ≫= f).
Proof.
  intros Hm Hf w. specialize (Hm w). unfold final, mbind, M_bind in *.
  destruct (m w) as [[a|e] w1]; cbn in *; [|exact Hm].
  etransitivity; [exact Hm | apply Hf].
Qed.


Lemma stable_try `{!Transitive R} {A} (body handler : M A) :
  stable R body -> stable R handler ->
  stable R (try_except_OSError body handler).
Proof.
  intros Hb Hh w. specialize (Hb w).
  unfold final, try_except_OSError in *.
  destruct (body w) as [[a|[e|msg|s]] w1]; cbn in *; try exact Hb.
  etransitivity; [exact Hb | apply Hh].
Qed.

End Stability.

#[export] Instance same_cwd_refl : Reflexive same_cwd.
Proof. now intros w. Qed.

#[export] Instance same_cwd_trans : Transitive same_cwd.
Proof. unfold same_cwd. intros w1 w2 w3 H12 H23. congruence. Qed.

#[export] Instance fs_grows_by_dir_refl b : Reflexive (fs_grows_by_dir b).
Proof. intros w. split; [easy | congruence]. Qed.

#[export] Instance fs_grows_by_dir_trans b : Transitive (fs_grows_by_dir b).
Proof.
  intros w1 w2 w3 [Hkeep12 Hnew12] [Hkeep23 Hnew23]. split.
  - intros q n Hq. apply Hkeep23, Hkeep12, Hq.
  - intros q n Hnone Hq.
    destruct (fs w2 !! q) as [m|] eqn:H2.
    + pose proof (Hkeep23 q m H2) as H3.
      assert (m = n) as -> by congruence.
      exact (Hnew12 q n Hnone H2).
    + exact (Hnew23 q n H2 Hq).
Qed.

#[export] Instance fs_same_outside_refl P : Reflexive (fs_same_outside P).
Proof. now intros w q _. Qed.

#[export] Instance fs_same_outside_trans P :
  Transitive (fs_same_outside P).
Proof.
  intros w1 w2 w3 H12 H23 q Hq. now rewrite (H23 q Hq), (H12 q Hq).
Qed.

Section PrimitiveStability.

Context (E : Env).

Lemma shell_call_same_cwd argv stdin :
  stable same_cwd (shell_call E argv stdin).
Proof.
  intros w. unfold same_cwd, final, shell_call.
  destruct (exec E argv stdin w) as [s f]. now destruct (s =? 0).
Qed.

Lemma shell_Popen_same_cwd argv : stable same_cwd (shell_Popen argv).
Proof. now intros w. Qed.

Lemma os_unlink_same_cwd path : stable same_cwd (os_unlink E path).
Proof.
  intros w. unfold same_cwd, final, os_unlink.
  destruct (os_fault _ _ _); [reflexivity|].
  now destruct (fs w !! path) as [[| |]|].
Qed.

Lemma os_symlink_same_cwd src dst : stable same_cwd (os_symlink E src dst).
Proof.
  intros w. unfold same_cwd, final, os_symlink.
  destruct (os_fault _ _ _); [reflexivity|]. now destruct (fs w !! dst).
Qed.

Lemma os_makedirs_same_cwd path : stable same_cwd (os_makedirs E path).
Proof.
  intros w. unfold same_cwd, final, os_makedirs.
  destruct (os_fault _ _ _); [reflexivity|]. now destruct (fs w !! path).
Qed.

(** The filesystem effect of each operation. *)






(** What a successful [os.symlink] leaves behind. *)
Lemma os_symlink_Ok src dst w :
  result (os_symlink E src dst) w = Ok tt ->
  fs (final (os_symlink E src dst) w) !! dst = Some (Link src).
Proof.
  unfold result, final, os_symlink.
  destruct (os_fault _ _ _); [discriminate|].
  destruct (fs w !! dst); [discriminate|]. intros _. cbn.
  apply lookup_insert_eq.
Qed.

End PrimitiveStability.

(** ** [TensorFlow.build] *)

(** X1: every run of [TensorFlow.build] has one of four shapes.  It always
    starts [yes ''] and runs the configure script on its output.  Either
    the configure script fails and nothing else happens; or bazel runs and
    fails and nothing else happens; or both succeed, the host target is
    not recognised and a [RuntimeError] is raised; or both succeed, the
    host target is recognised, and the unlink and the symlink follow, the
    method returning normally or with the [OSError] of the symlink. *)
Theorem tensorflow_build_shapes
    (E : Env) (self : Product) (host_target : string) (w : World) :
  let run := TensorFlow.build E self host_target in
  let popen := EvPopen ["yes"; ""] in
  let configure := fun s =>
    EvCall (cwd w) [os_path_join (source_dir self) ["configure"]]
           (Some (StdoutOf ["yes"; ""])) s in
  let bazel_build := fun s =>
    EvCall (cwd w) (TensorFlow.bazel_argv self) None s in
  (exists s, s <> 0
     /\ events run w = [popen; configure s]
     /\ result run w = Raise (CommandFailed s))
  \/ (exists s, s <> 0
        /\ events run w = [popen; configure 0; bazel_build s]
        /\ result run w = Raise (CommandFailed s))
  \/ (startswith host_target "macosx" = false
      /\ startswith host_target "linux" = false
      /\ events run w = [popen; configure 0; bazel_build 0]
      /\ result run w
         = Raise (RuntimeError ("unknown host target " +:+ host_target)))
  \/ (exists suffixed unsuffixed,
        TensorFlow.select_lib_names host_target w
          = (Ok (suffixed, unsuffixed), w)
        /\ events run w
           = [ popen; configure 0; bazel_build 0;
               EvSys (SysUnlink (TensorFlow.bazel_bin self unsuffixed));
               EvSys (SysSymlink (TensorFlow.bazel_bin self suffixed)
                                 (TensorFlow.bazel_bin self unsuffixed)) ]
        /\ (result run w = Ok tt
            \/ exists e, result run w = Raise (OSError e))).
Proof.
  cbv zeta.
  unfold TensorFlow.build, TensorFlow.select_lib_names,
    TensorFlow.link_unsuffixed, try_except_OSError, pass.
  unfold result, events, final, mbind, M_bind, mret, M_ret, shell_Popen.
  cbn.
  step_call; [step_call|].
  - destruct (startswith host_target "macosx") eqn:Hm;
      [| destruct (startswith host_target "linux") eqn:Hl ]; cbn.
    + do 3 right. eexists _, _. split; [reflexivity|].
      step_sys; step_sys; read_events; eauto.
    + do 3 right. eexists _, _. split; [reflexivity|].
      step_sys; step_sys; read_events; eauto.
    + right; right; left. read_events. auto.
  - right; left. exists s. read_events. auto.
  - left. exists s. read_events. auto.
Qed.

(** A normal return of [TensorFlow.build] went through the dispatch and a
    successful [os.symlink]. *)
Lemma tensorflow_build_Ok_inv
    (E : Env) (self : Product) (host_target : string) (w : World) :
  result (TensorFlow.build E self host_target) w = Ok tt ->
  exists suffixed unsuffixed,
    TensorFlow.select_lib_names host_target w
      = (Ok (suffixed, unsuffixed), w)
    /\ fs (final (TensorFlow.build E self host_target) w)
         !! TensorFlow.bazel_bin self unsuffixed
       = Some (Link (TensorFlow.bazel_bin self suffixed)).
Proof.
  unfold TensorFlow.build, TensorFlow.select_lib_names,
    TensorFlow.link_unsuffixed, try_except_OSError, pass.
  unfold result, final, mbind, M_bind, mret, M_ret, shell_Popen. cbn.
  step_call; [step_call|]; try discriminate.
  assert (Hlink : forall suffixed unsuffixed w0 r w1,
    os_symlink E (TensorFlow.bazel_bin self suffixed)
                 (TensorFlow.bazel_bin self unsuffixed) w0 = (r, w1) ->
    r = Ok tt ->
    fs w1 !! TensorFlow.bazel_bin self unsuffixed
    = Some (Link (TensorFlow.bazel_bin self suffixed))).
  { intros sfx unsfx w0 r w1 Hrun ->.
    pose proof (os_symlink_Ok E (TensorFlow.bazel_bin self sfx)
                  (TensorFlow.bazel_bin self unsfx) w0) as H.
    unfold result, final in H. rewrite Hrun in H. now apply H. }
  destruct (startswith host_target "macosx") eqn:Hm;
    [| destruct (startswith host_target "linux") eqn:Hl ]; cbn;
    try discriminate.
  all: step_sys.
  all: match goal with
       | |- context [os_symlink ?E ?s ?d ?w0] =>
           destruct (os_symlink E s d w0) as [r w1] eqn:Hrun
       end.
  all: destruct r as [[]|x]; cbn; intros Hok; try discriminate Hok.
  all: eexists _, _; split; [reflexivity|].
  all: exact (Hlink _ _ _ _ _ Hrun eq_refl).
Qed.

(** X2: when [TensorFlow.build] returns normally, the host target was a
    recognised one and the unsuffixed library name in
    [source_dir/bazel-bin/tensorflow] is a symbolic link to the
    version-suffixed name, whatever the tools and the operating system did
    on the way. *)
Theorem tensorflow_build_success_links
    (E : Env) (self : Product) (host_target : string) (w : World) :
  result (TensorFlow.build E self host_target) w = Ok tt ->
  exists suffixed unsuffixed,
    TensorFlow.select_lib_names host_target w
      = (Ok (suffixed, unsuffixed), w)
    /\ fs (final (TensorFlow.build E self host_target) w)
         !! TensorFlow.bazel_bin self unsuffixed
       = Some (Link (TensorFlow.bazel_bin self suffixed)).
Proof.
  intros Hok.
  destruct (tensorflow_build_Ok_inv E self host_target w Hok)
    as (suffixed & unsuffixed & Hnames & Hlink).
  now exists suffixed, unsuffixed.
Qed.

Lemma tensorflow_build_success_links_witness :
  fs (final (TensorFlow.build (Sample.env_exit 0) Sample.tensorflow
                              "linux-x86_64")
            Sample.empty_world)
    !! "/src/tensorflow/bazel-bin/tensorflow/libtensorflow.so"
  = Some (Link "/src/tensorflow/bazel-bin/tensorflow/libtensorflow.so.2.1.0").
Proof.
  destruct (tensorflow_build_success_links
              (Sample.env_exit 0) Sample.tensorflow "linux-x86_64"
              Sample.empty_world)
    as (suffixed & unsuffixed & Hnames & Hlink).
  - vm_compute. reflexivity.
  - injection Hnames as <- <-. exact Hlink.
Defined.

Section MethodStability.

Context (E : Env) (self : Product) (host_target : string).

Lemma select_lib_names_stable (R : World -> World -> Prop) `{!Reflexive R} :
  stable R (TensorFlow.select_lib_names host_target).
Proof.
  unfold TensorFlow.select_lib_names.
  repeat case_match; first [apply stable_ret | apply stable_raise];
    assumption.
Qed.




Lemma tensorflow_build_same_cwd :
  stable same_cwd (TensorFlow.build E self host_target).
Proof.
  unfold TensorFlow.build, TensorFlow.link_unsuffixed.
  apply stable_bind; [exact _ | apply shell_Popen_same_cwd | intros p].
  apply stable_bind; [exact _ | apply shell_call_same_cwd | intros _].
  apply stable_bind; [exact _ | apply shell_call_same_cwd | intros _].
  apply stable_bind;
    [exact _ | apply select_lib_names_stable; exact _ | intros names].
  apply stable_bind; [exact _ | | intros _; apply os_symlink_same_cwd].
  apply stable_try; [exact _ | apply os_unlink_same_cwd |].
  apply stable_ret. exact _.
Qed.




End MethodStability.

(** X3: [TensorFlow.build] and [TensorFlowSwiftAPIs.install] never change
    the working directory, however they end. *)
Theorem tensorflow_build_keeps_cwd
    (E : Env) (self : Product) (host_target : string) (w : World) :
  cwd (final (TensorFlow.build E self host_target) w) = cwd w
  /\ cwd (final (TensorFlowSwiftAPIs.install E self host_target) w) = cwd w.
Proof.
  split.
  - apply tensorflow_build_same_cwd.
  - apply (shell_call_same_cwd E).
Qed.





(** ** [TensorFlowSwiftAPIs.build] *)

(** X6: the footprint of [TensorFlowSwiftAPIs.build].  In every run,
    whatever the host target and the environment, the only system calls it
    issues are [makedirs] of [build_dir] and [chdir] to [build_dir] or back
    to the starting directory; it starts no background process; and every
    command it runs is the toolchain's CMake, run inside [build_dir]
    without a redirected standard input.  It runs at most two commands. *)
Theorem apis_build_footprint
    (E : Env) (self : Product) (host_target : string) (w : World) :
  let evs := events (TensorFlowSwiftAPIs.build E self host_target) w in
  Forall (fun ev =>
            match ev with
            | EvSys (SysMakedirs path) => path = build_dir self
            | EvSys (SysChdir path) =>
                path = build_dir self \/ path = cwd w
            | EvSys _ => False
            | EvPopen _ => False
            | EvCall dir argv stdin _ =>
                dir = build_dir self /\ stdin = None
                /\ head argv = Some (cmake (toolchain self))
            end) evs
  /\ (length (calls evs) <= 2)%nat.
Proof.
  cbv zeta.
  unfold TensorFlowSwiftAPIs.build, TensorFlowSwiftAPIs.select_lib_name,
    TensorFlowSwiftAPIs.make_build_dir, TensorFlowSwiftAPIs.run_cmake,
    shell_pushd, try_except_OSError, pass, os_path_realpath, os_getcwd.
  unfold events, final, mbind, M_bind, mret, M_ret. cbn.
  destruct (startswith host_target "macosx");
    [| destruct (startswith host_target "linux") ]; cbn.
  3: { rewrite drop_all. split; [constructor | cbn; lia]. }
  all: step_sys; (step_sys; [step_call; [step_call; [step_sys|] |] |]).
  all: read_events; split; [| cbn; lia].
  all: repeat (constructor; [cbn; auto |]); constructor.
Qed.

(** X7: when [TensorFlowSwiftAPIs.build] returns normally, the host target
    was a recognised one, both CMake runs took place in [build_dir] and
    exited with status zero, and the working directory is the one the
    build started in. *)
Theorem apis_build_success_complete
    (E : Env) (self : Product) (host_target : string) (w : World) :
  let run := TensorFlowSwiftAPIs.build E self host_target in
  let swiftc :=
    os_path_join
      (toolchain_path E (install_destdir (args self))
                      (install_prefix (args self)))
      ["usr"; "bin"; "swiftc"] in
  let tensorflow_source_dir :=
    realpath E w (os_path_join (source_dir self) [".."; "tensorflow"]) in
  result run w = Ok tt ->
  exists lib_name,
    TensorFlowSwiftAPIs.select_lib_name host_target w = (Ok lib_name, w)
    /\ events run w
       = [ EvSys (SysMakedirs (build_dir self));
           EvSys (SysChdir (build_dir self));
           EvCall (build_dir self)
                  (TensorFlowSwiftAPIs.configure_argv
                     self swiftc tensorflow_source_dir lib_name)
                  None 0;
           EvCall (build_dir self) (TensorFlowSwiftAPIs.build_argv self)
                  None 0;
           EvSys (SysChdir (cwd w)) ]
    /\ cwd (final run w) = cwd w.
Proof.
  cbv zeta.
  unfold TensorFlowSwiftAPIs.build, TensorFlowSwiftAPIs.select_lib_name,
    TensorFlowSwiftAPIs.make_build_dir, TensorFlowSwiftAPIs.run_cmake,
    shell_pushd, try_except_OSError, pass, os_path_realpath, os_getcwd.
  unfold result, events, final, mbind, M_bind, mret, M_ret. cbn.
  destruct (startswith host_target "macosx");
    [| destruct (startswith host_target "linux") ]; cbn;
    [ | | discriminate ].
  all: step_sys; (step_sys; [step_call; [step_call; [step_sys|] |] |]).
  all: try discriminate.
  all: intros _; eexists; split; [reflexivity|].
  all: read_events; split; reflexivity.
Qed.

Lemma apis_build_success_complete_witness :
  cwd (final (TensorFlowSwiftAPIs.build (Sample.env_exit 0) Sample.apis
                                        "macosx-arm64")
             Sample.empty_world)
  = "/".
Proof.
  destruct (apis_build_success_complete
              (Sample.env_exit 0) Sample.apis "macosx-arm64"
              Sample.empty_world)
    as (lib_name & _ & _ & Hcwd).
  - vm_compute. reflexivity.
  - exact Hcwd.
Defined.

(** X8: the two adapters agree on the library.  For every host target,
    [TensorFlowSwiftAPIs.build] accepts it with library name [lib_name]
    exactly when [TensorFlow.build] accepts it with [lib_name] as the
    unsuffixed name it links: the file CMake is told to link against is the
    link the runtime-library adapter creates. *)
Theorem lib_names_agree (host_target lib_name : string) (w : World) :
  TensorFlowSwiftAPIs.select_lib_name host_target w = (Ok lib_name, w)
  <-> exists suffixed,
        TensorFlow.select_lib_names host_target w
          = (Ok (suffixed, lib_name), w).
Proof.
  unfold TensorFlowSwiftAPIs.select_lib_name, TensorFlow.select_lib_names.
  destruct (startswith host_target "macosx");
    [| destruct (startswith host_target "linux") ]; cbn.
  - split; [intros [= <-]; eauto | intros [s [= <- <-]]; reflexivity].
  - split; [intros [= <-]; eauto | intros [s [= <- <-]]; reflexivity].
  - split; [discriminate | intros [s Hs]; discriminate Hs].
Qed.

(** ** The guarded steps *)

(** X9: a swallowed [unlink] failure can come back as a failure of the
    symlink.  When the unsuffixed name exists but [os.unlink] raises (the
    name is a directory, or the operating system refuses), the [except]
    branch ignores that; the name is still there, so, unless the operating
    system refuses the symlink for a reason of its own, [os.symlink] raises
    the already-exists error, which leaves the step, and the filesystem is
    as it was. *)
Theorem link_unsuffixed_blocked
    (E : Env) (self : Product) (suffixed unsuffixed : string) (w : World)
    (x : Exn) :
  let link := TensorFlow.bazel_bin self unsuffixed in
  let target := TensorFlow.bazel_bin self suffixed in
  let step := TensorFlow.link_unsuffixed E self suffixed unsuffixed in
  is_Some (fs w !! link) ->
  result (os_unlink E link) w = Raise x ->
  os_fault E (SysSymlink target link) (record (EvSys (SysUnlink link)) w)
    = None ->
  result step w = Raise (OSError EEXIST)
  /\ fs (final step w) = fs w
  /\ events step w
     = [EvSys (SysUnlink link); EvSys (SysSymlink target link)].
Proof.
  cbv zeta. intros [n Hn] Hraise Hperm.
  set (link := TensorFlow.bazel_bin self unsuffixed) in *.
  set (target := TensorFlow.bazel_bin self suffixed) in *.
  assert (Hunlink : exists e,
            os_unlink E link w
            = (Raise (OSError e), record (EvSys (SysUnlink link)) w)).
  { revert Hraise. unfold result, os_unlink.
    destruct (os_fault E (SysUnlink link) w); [eauto|].
    rewrite Hn. destruct n; cbn; [eauto | discriminate | discriminate]. }
  destruct Hunlink as [e Hunlink].
  unfold events, result, final, TensorFlow.link_unsuffixed,
    try_except_OSError, pass, mbind, M_bind, mret, M_ret.
  fold link target. rewrite Hunlink. cbn.
  unfold os_symlink. rewrite Hperm. cbn. rewrite Hn. cbn.
  rewrite <- app_assoc, drop_app_length. repeat split.
Qed.

Lemma link_unsuffixed_blocked_witness :
  let occupied :=
    Sample.world
      {[ "/src/tensorflow/bazel-bin/tensorflow/libtensorflow.so" := Dir ]} in
  result (TensorFlow.link_unsuffixed (Sample.env_exit 0) Sample.tensorflow
            "libtensorflow.so.2.1.0" "libtensorflow.so")
         occupied
  = Raise (OSError EEXIST).
Proof.
  cbv zeta.
  refine (proj1
    (link_unsuffixed_blocked (Sample.env_exit 0) Sample.tensorflow
       "libtensorflow.so.2.1.0" "libtensorflow.so" _ (OSError EISDIR)
       _ _ _)).
  - exists Dir. vm_compute. reflexivity.
  - vm_compute. reflexivity.
  - reflexivity.
Defined.

(** X10: the guarded [os.makedirs] never fails and never harms.  For every
    world and environment the step returns normally and keeps the working
    directory; an entry already at [build_dir], of whatever kind, is left
    as it is together with the rest of the filesystem; and unless the
    operating system refuses the call for a reason of its own, [build_dir]
    exists afterwards. *)
Theorem make_build_dir_postcondition
    (E : Env) (self : Product) (w : World) :
  let step := TensorFlowSwiftAPIs.make_build_dir E self in
  result step w = Ok tt
  /\ cwd (final step w) = cwd w
  /\ (is_Some (fs w !! build_dir self) -> fs (final step w) = fs w)
  /\ (os_fault E (SysMakedirs (build_dir self)) w = None ->
      is_Some (fs (final step w) !! build_dir self)).
Proof.
  cbv zeta. split; [apply make_build_dir_total|].
  split; [apply make_build_dir_log|].
  split.
  - intros Hb. unfold final.
    now rewrite (make_build_dir_swallows E self w Hb).
  - intros Hperm.
    unfold final, TensorFlowSwiftAPIs.make_build_dir, try_except_OSError,
      pass, os_makedirs.
    rewrite Hperm.
    destruct (fs w !! build_dir self) as [n|] eqn:Hb; cbn.
    + rewrite Hb. eauto.
    + rewrite lookup_insert_eq. eauto.
Qed.

Lemma make_build_dir_postcondition_witness :
  is_Some (fs (final (TensorFlowSwiftAPIs.make_build_dir
                        (Sample.env_exit 0) Sample.apis)
                     Sample.empty_world)
           !! "/build/tensorflow-swift-apis").
Proof.
  refine (proj2 (proj2 (proj2
    (make_build_dir_postcondition (Sample.env_exit 0) Sample.apis
                                  Sample.empty_world))) _).
  reflexivity.
Defined.

(** ** The two adapters together *)

(** Every generating CMake run of [TensorFlowSwiftAPIs.build] is told to
    link against the dispatched library name under the resolved
    [../tensorflow/bazel-bin/tensorflow]. *)
Lemma apis_build_library_argument
    (E : Env) (self : Product) (host_target lib_name : string) (w : World) :
  let tensorflow_source_dir :=
    realpath E w (os_path_join (source_dir self) [".."; "tensorflow"]) in
  TensorFlowSwiftAPIs.select_lib_name host_target w = (Ok lib_name, w) ->
  Forall (fun ev =>
            match ev with
            | EvCall _ argv _ _ =>
                argv = TensorFlowSwiftAPIs.build_argv self
                \/ In ("TensorFlow_LIBRARY="
                       +:+ os_path_join tensorflow_source_dir
                             ["bazel-bin"; "tensorflow"; lib_name])
                      argv
            | _ => True
            end)
         (events (TensorFlowSwiftAPIs.build E self host_target) w).
Proof.
  cbv zeta.
  unfold TensorFlowSwiftAPIs.build, TensorFlowSwiftAPIs.select_lib_name,
    TensorFlowSwiftAPIs.make_build_dir, TensorFlowSwiftAPIs.run_cmake,
    shell_pushd, try_except_OSError, pass, os_path_realpath, os_getcwd.
  unfold events, final, mbind, M_bind, mret, M_ret. cbn.
  destruct (startswith host_target "macosx");
    [| destruct (startswith host_target "linux") ]; cbn;
    [ | | discriminate ]; intros [= <-].
  all: step_sys; (step_sys; [step_call; [step_call; [step_sys|] |] |]).
  all: read_events.
  all: repeat (constructor;
               [first [ exact I
                      | now left
                      | right; unfold TensorFlowSwiftAPIs.configure_argv;
                        cbn; tauto ] |]);
       constructor.
Qed.

(** X11: the bindings find the library the runtime adapter linked.  Let
    [TensorFlow.build] return normally for a host target, and let
    [os.path.realpath] resolve the sibling directory [../tensorflow] of the
    bindings' sources to the runtime library's source directory.  Then the
    host target is accepted by [TensorFlowSwiftAPIs.build] too; the library
    path under [bazel-bin/tensorflow] that it dispatches to
    ([libtensorflow.dylib] for [macosx], [libtensorflow.so] for [linux]) is,
    in the filesystem the first build left, a symbolic link to the
    version-suffixed library ([libtensorflow.2.1.0.dylib],
    [libtensorflow.so.2.1.0]) in the same directory; and every generating
    CMake run of the second build is passed that path as
    [TensorFlow_LIBRARY]. *)
Theorem apis_library_is_linked
    (E : Env) (tensorflow apis : Product) (host_target : string)
    (w : World) :
  let w' := final (TensorFlow.build E tensorflow host_target) w in
  let tensorflow_source_dir :=
    realpath E w' (os_path_join (source_dir apis) [".."; "tensorflow"]) in
  let library := fun lib_name =>
    os_path_join tensorflow_source_dir
                 ["bazel-bin"; "tensorflow"; lib_name] in
  let linked := fun suffixed lib_name =>
    TensorFlowSwiftAPIs.select_lib_name host_target w' = (Ok lib_name, w')
    /\ fs w' !! library lib_name
       = Some (Link (os_path_join (source_dir tensorflow)
                       ["bazel-bin"; "tensorflow"; suffixed]))
    /\ Forall (fun ev =>
                 match ev with
                 | EvCall _ argv _ _ =>
                     argv = TensorFlowSwiftAPIs.build_argv apis
                     \/ In ("TensorFlow_LIBRARY=" +:+ library lib_name) argv
                 | _ => True
                 end)
              (events (TensorFlowSwiftAPIs.build E apis host_target) w') in
  result (TensorFlow.build E tensorflow host_target) w = Ok tt ->
  tensorflow_source_dir = source_dir tensorflow ->
  (startswith host_target "macosx" = true
   /\ linked "libtensorflow.2.1.0.dylib" "libtensorflow.dylib")
  \/ (startswith host_target "macosx" = false
      /\ startswith host_target "linux" = true
      /\ linked "libtensorflow.so.2.1.0" "libtensorflow.so").
Proof.
  cbv zeta. intros Hok Hdir.
  destruct (tensorflow_build_Ok_inv E tensorflow host_target w Hok)
    as (suffixed & lib_name & Hnames & Hlink).
  set (w' := final (TensorFlow.build E tensorflow host_target) w) in *.
  assert (Hsel : forall lib,
            TensorFlowSwiftAPIs.select_lib_name host_target w = (Ok lib, w)
            -> TensorFlowSwiftAPIs.select_lib_name host_target w'
               = (Ok lib, w')).
  { unfold TensorFlowSwiftAPIs.select_lib_name. intros lib.
    destruct (startswith host_target "macosx");
      [| destruct (startswith host_target "linux") ]; cbn;
      intros [= <-] || discriminate; reflexivity. }
  revert Hnames Hsel.
  unfold TensorFlow.select_lib_names,
    TensorFlowSwiftAPIs.select_lib_name at 1.
  destruct (startswith host_target "macosx") eqn:Hm;
    [| destruct (startswith host_target "linux") eqn:Hl ]; cbn;
    [ | | discriminate ]; intros [= <- <-] Hsel;
    [left; split; [reflexivity|] | right; do 2 (split; [reflexivity|])].
  all: split; [apply Hsel; reflexivity|].
  all: split; [rewrite Hdir; exact Hlink|].
  all: apply apis_build_library_argument, Hsel; reflexivity.
Qed.

Lemma apis_library_is_linked_witness :
  fs (final (TensorFlow.build Checkout.env Sample.tensorflow
                              "linux-x86_64")
            Sample.empty_world)
    !! "/src/tensorflow/bazel-bin/tensorflow/libtensorflow.so"
  = Some (Link "/src/tensorflow/bazel-bin/tensorflow/libtensorflow.so.2.1.0").
Proof.
  destruct (apis_library_is_linked Checkout.env Sample.tensorflow
              Sample.apis "linux-x86_64" Sample.empty_world)
    as [[Hmac _]|(_ & _ & _ & Hlink & _)].
  - vm_compute. reflexivity.
  - reflexivity.
  - discriminate Hmac.
  - exact Hlink.
Defined.
